(** * linkcheck.htmlutil.linkparse: finding link tags in HTML tag events

    A shallow embedding of [src/linkcheck/htmlutil/linkparse.py] and the
    properties its specification states about it.

    Conventions of the embedding.
    - Python [str] is [string]; its characters are read as the code points
      U+0000 to U+00FF, on which [str.lower], [str.split] and the regular
      expression classes [\d], [\s] and [.] are written out below.
    - A Python value that is [None] or a [str] is an [option string].
    - The attribute dictionary of a tag is a [gmap string (option string)]:
      a key may be absent, present with [None], or present with a text.
    - A raised exception is a value of [exn]; code that can raise returns a
      [result], and code that calls the sink returns the calls it made
      together with its [result]. *)

From Stdlib Require Import Ascii String NArith.
From stdpp Require Import base option list gmap strings sorting.

Local Open Scope stdpp_scope.

(** ** Characters *)

Definition code (c : ascii) : N := N_of_ascii c.

(** [\d] of a [str] pattern, on the code points modelled. *)
Definition is_digit (c : ascii) : bool :=
  (48 <=? code c)%N && (code c <=? 57)%N.

(** [str.isspace] of one character, which is also [\s] of a [str] pattern
    and the separator of [str.split()]. *)
Definition is_space (c : ascii) : bool :=
  let n := code c in
  ((9 <=? n)%N && (n <=? 13)%N) || ((28 <=? n)%N && (n <=? 32)%N)
  || (n =? 133)%N || (n =? 160)%N.

(** [str.lower] of one character. *)
Definition lower_char (c : ascii) : ascii :=
  let n := code c in
  if ((65 <=? n)%N && (n <=? 90)%N)
     || ((192 <=? n)%N && (n <=? 222)%N && negb (n =? 215)%N)
  then ascii_of_N (n + 32) else c.

Definition newline : ascii := ascii_of_N 10.

(** ** Strings *)

(** [s.lower()] *)
Fixpoint lower (s : string) : string :=
  match s with
  | EmptyString => EmptyString
  | String c s' => String (lower_char c) (lower s')
  end.

(** [s.split(sep)] for a separator of one character: never empty. *)
Fixpoint split_on (sep : ascii) (s : string) : list string :=
  match s with
  | EmptyString => [EmptyString]
  | String c s' =>
      if Ascii.eqb c sep then EmptyString :: split_on sep s'
      else match split_on sep s' with
           | w :: ws => String c w :: ws
           | [] => [String c EmptyString]
           end
  end.

(** [s.split()]: the maximal runs of characters that are not white space. *)
Fixpoint split_ws (s : string) : list string :=
  match s with
  | EmptyString => []
  | String c s' =>
      if is_space c then split_ws s'
      else match s' with
           | EmptyString => [String c EmptyString]
           | String c' _ =>
               if is_space c' then String c EmptyString :: split_ws s'
               else match split_ws s' with
                    | w :: ws => String c w :: ws
                    | [] => [String c EmptyString]
                    end
           end
  end.

(** [ch in s] for a character [ch]. *)
Fixpoint contains_char (ch : ascii) (s : string) : bool :=
  match s with
  | EmptyString => false
  | String c s' => Ascii.eqb c ch || contains_char ch s'
  end.

(** [s.split(ch, 1)[1]] when [ch in s]: what follows the first [ch]. *)
Fixpoint after_first (ch : ascii) (s : string) : string :=
  match s with
  | EmptyString => EmptyString
  | String c s' => if Ascii.eqb c ch then s' else after_first ch s'
  end.

(** [s.rstrip(ch)] for a character [ch]: every trailing [ch] goes. *)
Fixpoint rstrip (ch : ascii) (s : string) : string :=
  match s with
  | EmptyString => EmptyString
  | String c s' =>
      match rstrip ch s' with
      | EmptyString => if Ascii.eqb c ch then EmptyString
                       else String c EmptyString
      | r => String c r
      end
  end.

(** [s.strip()]: white space removed at both ends. *)
Fixpoint lstrip_ws (s : string) : string :=
  match s with
  | EmptyString => EmptyString
  | String c s' => if is_space c then lstrip_ws s' else s
  end.

Fixpoint rstrip_ws (s : string) : string :=
  match s with
  | EmptyString => EmptyString
  | String c s' =>
      match rstrip_ws s' with
      | EmptyString => if is_space c then EmptyString
                       else String c EmptyString
      | r => String c r
      end
  end.

Definition strip_ws (s : string) : string := rstrip_ws (lstrip_ws s).

(** Every character of [s] satisfies [p]. *)
Fixpoint all_chars (p : ascii → bool) (s : string) : bool :=
  match s with
  | EmptyString => true
  | String c s' => p c && all_chars p s'
  end.

(** [x in l] for a list of strings. *)
Definition mem (x : string) (l : list string) : bool :=
  bool_decide (x ∈ l).

(** ** Python values, exceptions *)

(** Truth value of [None] or a [str]. *)
Definition truthy (v : option string) : bool :=
  match v with
  | Some (String _ _) => true
  | _ => false
  end.

Inductive exn : Set :=
  | StopParse
  | AttributeError
  | TypeError
  | IndexError
  | AssertionError.

Inductive result (A : Type) : Type :=
  | Ok (a : A)
  | Raise (e : exn).
Arguments Ok {A} a.
Arguments Raise {A} e.

Definition rbind {A B} (r : result A) (k : A → result B) : result B :=
  match r with
  | Ok a => k a
  | Raise e => Raise e
  end.

(** ** Tag attributes *)

Abbreviation attrs_t := (gmap string (option string)).

(** [attrs.get(key)] *)
Definition get (attrs : attrs_t) (key : string) : option string :=
  default None (attrs !! key).

(** [attrs.get(key, dflt)] *)
Definition get_default (attrs : attrs_t) (key dflt : string) : option string :=
  default (Some dflt) (attrs !! key).

(** [attrs.get(key, u'').lower()]: [None] has no [lower]. *)
Definition get_lower (attrs : attrs_t) (key : string) : result string :=
  match get_default attrs key "" with
  | Some s => Ok (lower s)
  | None => Raise AttributeError
  end.

(** ** MetaRobotsFinder *)

Module MetaRobotsFinder.

Record t : Set := mk { follow : bool; index : bool }.

(** [__init__]: both flags start true. *)
Definition init : t := {| follow := true; index := true |}.

(** [start_element]: the finder after the call and how the call ended. *)
Definition start_element (self : t) (tag : string) (attrs : attrs_t)
    (element_text : string) (lineno column : Z) : t * result unit :=
  if bool_decide (tag = "meta") && bool_decide (get attrs "name" = Some "robots")
  then
    match get_lower attrs "content" with
    | Raise e => (self, Raise e)
    | Ok low =>
        let val := split_on "," low in
        ({| follow := negb (mem "nofollow" val);
            index := negb (mem "noindex" val) |},
         Raise StopParse)
    end
  else if bool_decide (tag = "body") then (self, Raise StopParse)
  else (self, Ok tt).

End MetaRobotsFinder.

(** ** Rule tables

    A table maps a tag name, or [None] for every tag, to the attributes
    that carry links. *)

Abbreviation tag_table := (gmap (option string) (list string)).

(** HTML4/5 link tags *)
Definition LinkTags : tag_table :=
  list_to_map [
    (Some "a", ["href"]);
    (Some "applet", ["archive"; "src"]);
    (Some "area", ["href"]);
    (Some "audio", ["src"]);
    (Some "bgsound", ["src"]);
    (Some "blockquote", ["cite"]);
    (Some "body", ["background"]);
    (Some "button", ["formaction"]);
    (Some "del", ["cite"]);
    (Some "embed", ["pluginspage"; "src"]);
    (Some "form", ["action"]);
    (Some "frame", ["src"; "longdesc"]);
    (Some "head", ["profile"]);
    (Some "html", ["manifest"]);
    (Some "iframe", ["src"; "longdesc"]);
    (Some "ilayer", ["background"]);
    (Some "img", ["src"; "lowsrc"; "longdesc"; "usemap"; "srcset"]);
    (Some "input", ["src"; "usemap"; "formaction"]);
    (Some "ins", ["cite"]);
    (Some "isindex", ["action"]);
    (Some "layer", ["background"; "src"]);
    (Some "link", ["href"]);
    (Some "meta", ["content"; "href"]);
    (Some "object", ["classid"; "data"; "archive"; "usemap"; "codebase"]);
    (Some "q", ["cite"]);
    (Some "script", ["src"]);
    (Some "source", ["src"]);
    (Some "table", ["background"]);
    (Some "td", ["background"]);
    (Some "th", ["background"]);
    (Some "tr", ["background"]);
    (Some "track", ["src"]);
    (Some "video", ["src"]);
    (Some "xmp", ["href"]);
    (None, ["style"; "itemtype"])
  ].

(** HTML anchor tags *)
Definition AnchorTags : tag_table :=
  list_to_map [ (Some "a", ["name"]); (None, ["id"]) ].

(** WML tags *)
Definition WmlTags : tag_table :=
  list_to_map [
    (Some "a", ["href"]); (Some "go", ["href"]); (Some "img", ["src"])
  ].

(** ** Matchers *)

Fixpoint take_while (p : ascii → bool) (s : string) : string :=
  match s with
  | EmptyString => EmptyString
  | String c s' => if p c then String c (take_while p s') else EmptyString
  end.

Fixpoint drop_while (p : ascii → bool) (s : string) : string :=
  match s with
  | EmptyString => EmptyString
  | String c s' => if p c then drop_while p s' else s
  end.

(** [.] of a pattern without DOTALL: any character but the newline. *)
Definition is_dot (c : ascii) : bool := negb (Ascii.eqb c newline).

(** [(?P<url>.+)$]: a non-empty run of [.] that reaches the end of the
    text, or the newline that ends the text. *)
Definition dot_plus_eol (s : string) : option string :=
  match take_while is_dot s, drop_while is_dot s with
  | EmptyString, _ => None
  | url, EmptyString => Some url
  | url, String _ EmptyString => Some url
  | _, _ => None
  end.

(** [url=] under [(?i)]. *)
Definition url_keyword (s : string) : option string :=
  match s with
  | String u (String r (String l (String eq rest))) =>
      if Ascii.eqb (lower_char u) "u" && Ascii.eqb (lower_char r) "r"
         && Ascii.eqb (lower_char l) "l" && Ascii.eqb eq "="
      then Some rest else None
  | _ => None
  end.

(** [refresh_re.match(value)], the pattern [(?i)^\d+;\s*url=(?P<url>.+)$]:
    the group [url] of the match, if there is one. *)
Definition refresh_re_match (value : string) : option string :=
  match take_while is_digit value, drop_while is_digit value with
  | EmptyString, _ => None
  | _, String semi rest =>
      if Ascii.eqb semi ";" then
        match url_keyword (drop_while is_space rest) with
        | Some target => dot_plus_eol target
        | None => None
        end
      else None
  | _, EmptyString => None
  end.

(** Optional white space and the closing parenthesis: the length of the
    match at the start of [s]. *)
Definition css_close (s : string) : option nat :=
  match drop_while is_space s with
  | String c _ =>
      if Ascii.eqb c ")"
      then Some (S (String.length (take_while is_space s))) else None
  | EmptyString => None
  end.

(** The quoted alternatives of [css_url_re]: the quote [q], a non-empty
    run of characters other than [q], the quote [q] again; followed by
    optional white space and the closing parenthesis. The group and the
    length matched. *)
Definition css_quoted (q : ascii) (s : string) : option (string * nat) :=
  match s with
  | String c s' =>
      if Ascii.eqb c q then
        let body := take_while (λ x, negb (Ascii.eqb x q)) s' in
        match body, drop_while (λ x, negb (Ascii.eqb x q)) s' with
        | String _ _, String _ s'' =>
            match css_close s'' with
            | Some n =>
                Some (String q (body +:+ String q EmptyString),
                      String.length body + 2 + n)
            | None => None
            end
        | _, _ => None
        end
      else None
  | EmptyString => None
  end.

(** The bare alternative of [css_url_re]: a non-empty run of characters
    that are neither the closing parenthesis nor white space; followed by
    optional white space and the closing parenthesis. *)
Definition css_bare (s : string) : option (string * nat) :=
  let p := λ x, negb (Ascii.eqb x ")") && negb (is_space x) in
  match take_while p s with
  | EmptyString => None
  | body =>
      match css_close (drop_while p s) with
      | Some n => Some (body, String.length body + n)
      | None => None
      end
  end.

(** [css_url_re] matched at the start of [s]: the literal [url], an
    opening parenthesis, optional white space, the group [url] (tried as
    single-quoted, then double-quoted, then bare), optional white space and
    the closing parenthesis. The group [url] and the length of the match. *)
Definition css_url_re_match (s : string) : option (string * nat) :=
  match s with
  | String "u" (String "r" (String "l" (String "(" s1))) =>
      let s2 := drop_while is_space s1 in
      let found :=
        match css_quoted "'" s2 with
        | Some r => Some r
        | None =>
            match css_quoted "034" s2 with
            | Some r => Some r
            | None => css_bare s2
            end
        end in
      match found with
      | Some (url, n) =>
          Some (url, 4 + String.length (take_while is_space s1) + n)
      | None => None
      end
  | _ => None
  end.

(** [css_url_re.finditer(value)]: the groups of the matches found from left
    to right, none overlapping another; [skip] characters still belong to
    the match found last. *)
Fixpoint css_url_re_finditer_from (skip : nat) (s : string) : list string :=
  match s with
  | EmptyString => []
  | String _ s' =>
      match skip with
      | S k => css_url_re_finditer_from k s'
      | O =>
          match css_url_re_match s with
          | Some (url, n) => url :: css_url_re_finditer_from (pred n) s'
          | None => css_url_re_finditer_from O s'
          end
      end
  end.

Definition css_url_re_finditer (value : string) : list string :=
  css_url_re_finditer_from O value.

(** ** Classification predicates *)

(** [is_meta_url(attr, attrs)]: do the meta attributes contain a URL. *)
Definition is_meta_url (attr : string) (attrs : attrs_t) : result bool :=
  rbind
    (if bool_decide (attr = "content") then
       rbind (get_lower attrs "http-equiv") (λ equiv,
       rbind (get_lower attrs "scheme") (λ scheme,
       Ok (mem equiv ["refresh"] || mem scheme ["dcterms.uri"])))
     else Ok false)
    (λ res,
     if bool_decide (attr = "href") then
       rbind (get_lower attrs "rel") (λ rel,
       Ok (mem rel ["shortcut icon"; "icon"]))
     else Ok res).

(** [is_form_get(attr, attrs)]: is this a GET form action URL. *)
Definition is_form_get (attr : string) (attrs : attrs_t) : result bool :=
  if bool_decide (attr = "action") then
    rbind (get_lower attrs "method") (λ method,
    Ok (negb (bool_decide (method = "post"))))
  else Ok false.

(** ** The sink *)

(** One call of the callback: [callback(url, line=, column=, name=, base=)]. *)
Record sink_call : Set := SinkCall {
  url : option string;
  line : Z;
  column : Z;
  name : string;
  base : string
}.

(** Code that calls the sink: the calls made, in order, and the result. *)
Definition emit (A : Type) : Type := list sink_call * result A.

Definition ret {A} (a : A) : emit A := ([], Ok a).

Definition raise {A} (e : exn) : emit A := ([], Raise e).

Definition lift {A} (r : result A) : emit A := ([], r).

Definition bind {A B} (m : emit A) (k : A → emit B) : emit B :=
  match m with
  | (cs, Ok a) => let '(cs', r) := k a in (cs ++ cs', r)
  | (cs, Raise e) => (cs, Raise e)
  end.

(** [for x in l: body(x)] *)
Fixpoint for_each {A} (l : list A) (body : A → emit unit) : emit unit :=
  match l with
  | [] => ret tt
  | x :: l' => bind (body x) (λ _, for_each l' body)
  end.

(** [value.split(sep)] on a value that may be [None]. *)
Definition value_split (sep : ascii) (value : option string)
    : result (list string) :=
  match value with
  | Some v => Ok (split_on sep v)
  | None => Raise AttributeError
  end.

(** The text of a value known to be one. *)
Definition text_of (value : option string) : string := default "" value.

(** ** LinkFinder *)

Module LinkFinder.

Record t : Type := mk {
  ignore_classes : list string;
  universal_attrs : gset string;
  tags : gmap (option string) (gset string);
  base_ref : option string
}.

Definition set_base_ref (self : t) (v : option string) : t :=
  {| ignore_classes := ignore_classes self;
     universal_attrs := universal_attrs self;
     tags := tags self;
     base_ref := v |}.

(** [__init__(callback, tags, ignore_classes)]; the callback is the sink. *)
Definition init (tags : tag_table) (ignore_classes : list string) : t :=
  let universal : gset string := list_to_set (default [] (tags !! None)) in
  {| ignore_classes := ignore_classes;
     universal_attrs := universal;
     tags := (λ attrs : list string, list_to_set attrs ∪ universal) <$> tags;
     base_ref := Some "" |}.

(** [found_url]: the URL goes to the sink. *)
Definition found_url (url : option string) (name base : string)
    (lineno column : Z) : emit unit :=
  ([SinkCall url lineno column name base], Ok tt).

(** [get_link_name(tag, attrs, attr, name)], called with the text of the
    element as [name]. *)
Definition get_link_name (tag : string) (attrs : attrs_t) (attr : string)
    (name : string) : option string :=
  if bool_decide (tag = "a") && bool_decide (attr = "href") then
    if negb (truthy (Some name)) then get_default attrs "title" ""
    else Some name
  else if bool_decide (tag = "img") then
    let name := get_default attrs "alt" "" in
    if negb (truthy name) then get_default attrs "title" "" else name
  else Some "".

Section Finder.

(** [strformat.unquote(s, matching=True)]; the module [strformat] is not
    part of the files, so the function is left open. *)
Variable unquote : string → string.

(** The order in which a Python [set] is iterated; it is left open, the
    elements of the set being all that is known of it. *)
Variable iter : gset string → list string.

(** [sorted(s)] of a set of strings. *)
Definition sorted (s : gset string) : list string :=
  merge_sort String.le (iter s).

(** [parse_tag]: add the URL data of one attribute to the URL list. *)
Definition parse_tag (tag attr : string) (value name base : option string)
    (lineno column : Z) : emit unit :=
  match name, base with
  | Some name, Some base =>
      if bool_decide (tag = "meta") && truthy value then
        match refresh_re_match (text_of value) with
        | Some u => found_url (Some u) name base lineno column
        | None =>
            if negb (bool_decide (attr = "content"))
            then found_url value name base lineno column
            else ret tt
        end
      else if bool_decide (attr = "style") && truthy value then
        for_each (css_url_re_finditer (text_of value)) (λ mo,
          found_url (Some (unquote mo)) name base lineno column)
      else if bool_decide (attr = "archive") then
        bind (lift (value_split "," value)) (λ urls,
        for_each urls (λ u, found_url (Some u) name base lineno column))
      else if bool_decide (attr = "srcset") then
        bind (lift (value_split "," value)) (λ candidates,
        for_each candidates (λ img_candidate,
          match split_ws img_candidate with
          | u :: _ => found_url (Some u) name base lineno column
          | [] => raise IndexError
          end))
      else found_url value name base lineno column
  | _, _ => raise AssertionError
  end.

(** The body of the loop of [start_element] for the attribute [attr]. *)
Definition start_element_attr (self : t) (tag : string) (attrs : attrs_t)
    (element_text : string) (lineno column : Z) (attr : string)
    : emit unit :=
  bind (if bool_decide (tag = "meta")
        then lift (rbind (is_meta_url attr attrs) (λ b, Ok (negb b)))
        else ret false) (λ skip_meta,
  if skip_meta : bool then ret tt else
  bind (if bool_decide (tag = "form")
        then lift (rbind (is_form_get attr attrs) (λ b, Ok (negb b)))
        else ret false) (λ skip_form,
  if skip_form : bool then ret tt else
  let name := get_link_name tag attrs attr element_text in
  let base := Some "" in
  let base :=
    if bool_decide (tag = "applet") then get_default attrs "codebase" ""
    else base in
  let base := if negb (truthy base) then base_ref self else base in
  let value := get attrs attr in
  bind (if bool_decide (tag = "link")
           && bool_decide (get attrs "rel" = Some "dns-prefetch")
        then
          match value with
          | None => raise TypeError
          | Some v =>
              let v := if contains_char ":" v then after_first ":" v else v in
              ret (Some ("dns:" +:+ rstrip "/" v))
          end
        else ret value) (λ value,
  parse_tag tag attr value name base lineno column))).

(** [start_element]: the finder after the call, the calls of the sink and
    how the call ended. *)
Definition start_element (self : t) (tag : string) (attrs : attrs_t)
    (element_text : string) (lineno column : Z) : t * emit unit :=
  let self :=
    if bool_decide (tag = "base") && negb (truthy (base_ref self))
    then set_base_ref self (get_default attrs "href" "")
    else self in
  if bool_decide (tag = "a") && truthy (get attrs "class")
     && negb (bool_decide (ignore_classes self = []))
     && existsb (λ item, mem item (ignore_classes self))
          (split_ws (text_of (get attrs "class")))
  then (self, ret tt)
  else
    let tagattrs := default (universal_attrs self) (tags self !! Some tag) in
    (self,
     for_each (sorted (tagattrs ∩ dom attrs))
       (start_element_attr self tag attrs element_text lineno column)).

End Finder.

End LinkFinder.

(** ** Tag events and the scan of a document *)

Record tag_event : Type := TagEvent {
  ev_tag : string;
  ev_attrs : attrs_t;
  ev_text : string;
  ev_line : Z;
  ev_column : Z
}.

(** Modelled from the spec: the tokenizer that drives a finder is not part
    of the files. It calls [start_element] once per opened tag, in document
    order, and an exception raised by the finder, [StopParse] included, ends
    the scan: no further tag event is delivered. *)
Fixpoint feed_robots (self : MetaRobotsFinder.t) (evs : list tag_event)
    : MetaRobotsFinder.t * result unit :=
  match evs with
  | [] => (self, Ok tt)
  | ev :: evs' =>
      match MetaRobotsFinder.start_element self (ev_tag ev) (ev_attrs ev)
              (ev_text ev) (ev_line ev) (ev_column ev) with
      | (self', Ok _) => feed_robots self' evs'
      | (self', Raise e) => (self', Raise e)
      end
  end.

(** Modelled from the spec: the same scan with a [LinkFinder]; the calls of
    the sink made by the tag events delivered are collected in order. *)
Fixpoint feed (unquote : string → string) (iter : gset string → list string)
    (self : LinkFinder.t) (evs : list tag_event) : LinkFinder.t * emit unit :=
  match evs with
  | [] => (self, ret tt)
  | ev :: evs' =>
      let '(self', m) :=
        LinkFinder.start_element unquote iter self (ev_tag ev) (ev_attrs ev)
          (ev_text ev) (ev_line ev) (ev_column ev) in
      match m with
      | (cs, Ok _) =>
          let '(self'', (cs', r)) := feed unquote iter self' evs' in
          (self'', (cs ++ cs', r))
      | (cs, Raise e) => (self', (cs, Raise e))
      end
  end.

(** Modelled from the spec: [strformat.unquote] is not part of the files.
    The spec speaks of the un-quoted token of a CSS url occurrence: one
    pair of equal quotes around the token is taken away. It stands for
    [unquote] where a closed example needs one. *)
Definition strip_quotes (s : string) : string :=
  match s with
  | String q s' =>
      if (Ascii.eqb q "'" || Ascii.eqb q "034")
      then match String.rev s' with
           | String q' r => if Ascii.eqb q' q then String.rev r else s
           | EmptyString => s
           end
      else s
  | EmptyString => s
  end.

(** An iteration order of sets: it lists the elements of a set, each once. *)
Definition set_order (iter : gset string → list string) : Prop :=
  ∀ X, iter X ≡ₚ elements X.

(** The attribute dictionary with the given items. *)
Definition attrs_of (items : list (string * option string)) : attrs_t :=
  list_to_map items.

(** The text [ch] repeated [n] times. *)
Fixpoint repeat_char (ch : ascii) (n : nat) : string :=
  match n with
  | O => EmptyString
  | S k => String ch (repeat_char ch k)
  end.

(** ** Comments

    [c_comment_re] is a slash and a star, the shortest run of any
    characters, newlines included, and a star and a slash. *)

(** The text holds a star followed by a slash. *)
Fixpoint has_comment_end (s : string) : bool :=
  match s with
  | EmptyString => false
  | String c s' =>
      (Ascii.eqb c "*"
       && match s' with
          | String d _ => Ascii.eqb d "/"
          | EmptyString => false
          end)
      || has_comment_end s'
  end.

(** The text holds a slash followed by a star. *)
Fixpoint has_comment_start (s : string) : bool :=
  match s with
  | EmptyString => false
  | String c s' =>
      (Ascii.eqb c "/"
       && match s' with
          | String d _ => Ascii.eqb d "*"
          | EmptyString => false
          end)
      || has_comment_start s'
  end.

(** [c_comment_re.sub('', text)] read from left to right; [inside] says
    that the characters read belong to a comment, one that is known to
    end. *)
Fixpoint strip_c_comments_from (inside : bool) (s : string) : string :=
  match s with
  | EmptyString => EmptyString
  | String c s' =>
      if inside then
        match s' with
        | String d s'' =>
            if Ascii.eqb c "*" && Ascii.eqb d "/"
            then strip_c_comments_from false s''
            else strip_c_comments_from true s'
        | EmptyString => EmptyString
        end
      else
        match s' with
        | String d s'' =>
            if Ascii.eqb c "/" && Ascii.eqb d "*" && has_comment_end s''
            then strip_c_comments_from true s''
            else String c (strip_c_comments_from false s')
        | EmptyString => String c EmptyString
        end
  end.

(** [strip_c_comments(text)]: C/CSS-style comments removed from the text,
    those inside of strings too. *)
Definition strip_c_comments (text : string) : string :=
  strip_c_comments_from false text.

(** ** More on strings *)

(** [sep.join(l)] for a separator of one character. *)
Fixpoint join_on (sep : ascii) (l : list string) : string :=
  match l with
  | [] => EmptyString
  | [w] => w
  | w :: ws => w +:+ String sep (join_on sep ws)
  end.

(** [s[n:]] *)
Fixpoint drop_chars (n : nat) (s : string) : string :=
  match n, s with
  | S k, String _ s' => drop_chars k s'
  | _, _ => s
  end.

(** The tag event ends a scan for robots directives: a body tag, or a
    meta tag named [robots]. *)
Definition robots_decisive (ev : tag_event) : bool :=
  bool_decide (ev_tag ev = "body")
  || (bool_decide (ev_tag ev = "meta")
      && bool_decide (get (ev_attrs ev) "name" = Some "robots")).

(** Every attribute of the tag has a value: none is present with
    [None]. *)
Definition attrs_valued (attrs : attrs_t) : Prop :=
  ∀ key, attrs !! key ≠ Some None.

(** * Properties *)

(** Decides the comparisons of a tag or attribute name with a literal. *)
Ltac name_cases :=
  repeat match goal with
  | |- context [bool_decide (?a = ?b)] =>
      first [ rewrite (bool_decide_eq_true_2 (a = b)) by done
            | rewrite (bool_decide_eq_false_2 (a = b)) by done ]
  end.


(** ** Strings *)

Lemma string_app_cons c (a b : string) :
  String c a +:+ b = String c (a +:+ b).
Proof. reflexivity. Qed.

Lemma string_app_nil_l (b : string) : "" +:+ b = b.
Proof. reflexivity. Qed.

Lemma string_app_assoc (a b c : string) : (a +:+ b) +:+ c = a +:+ b +:+ c.
Proof.
  induction a as [|x a IH]; [done|].
  by rewrite !string_app_cons, IH.
Qed.

Lemma string_app_nil_r (a : string) : a +:+ "" = a.
Proof. induction a as [|x a IH]; [done | by rewrite string_app_cons, IH]. Qed.

Lemma take_drop_while p s : take_while p s +:+ drop_while p s = s.
Proof.
  induction s as [|c s IH]; simpl; [done|].
  destruct (p c); [by rewrite string_app_cons, IH | done].
Qed.

Lemma all_chars_take_while p s : all_chars p (take_while p s) = true.
Proof.
  induction s as [|c s IH]; simpl; [done|].
  destruct (p c) eqn:E; simpl; [by rewrite E | done].
Qed.

(** A run of [p] characters followed by a text that does not start with
    one is split by [take_while] and [drop_while] at that place. *)
Lemma take_while_app p a b :
  all_chars p a = true →
  (match b with String c _ => p c = false | EmptyString => True end) →
  take_while p (a +:+ b) = a ∧ drop_while p (a +:+ b) = b.
Proof.
  intros Ha Hb. induction a as [|c a IH].
  - rewrite string_app_nil_l. destruct b as [|c b]; simpl; [done|].
    by rewrite Hb.
  - simpl in Ha. apply andb_true_iff in Ha as [Hc Ha].
    rewrite string_app_cons. simpl. rewrite Hc.
    destruct (IH Ha) as [-> ->]. done.
Qed.

Lemma drop_while_head p s :
  match drop_while p s with String c _ => p c = false | EmptyString => True end.
Proof.
  induction s as [|c s IH]; simpl; [done|].
  destruct (p c) eqn:E; [done | simpl; done].
Qed.

Lemma is_space_not_url_start c : is_space c = true → lower_char c ≠ "u"%char.
Proof. destruct c as [[] [] [] [] [] [] [] []]; vm_compute; congruence. Qed.

Lemma lower_char_comma c : lower_char c = ","%char ↔ c = ","%char.
Proof.
  destruct c as [[] [] [] [] [] [] [] []]; vm_compute; split; congruence.
Qed.

(** Lowering a text and splitting it on commas is splitting it and
    lowering each token. *)
Lemma split_on_comma_lower s :
  split_on "," (lower s) = lower <$> split_on "," s.
Proof.
  induction s as [|c s IH]; simpl; [done|].
  destruct (Ascii.eqb_spec (lower_char c) ",") as [E|E].
  - apply lower_char_comma in E as ->. simpl. by rewrite IH.
  - destruct (Ascii.eqb_spec c ",") as [->|_]; [by destruct E|].
    rewrite IH. destruct (split_on "," s); done.
Qed.

Lemma split_ws_nil s : split_ws s = [] ↔ all_chars is_space s = true.
Proof.
  induction s as [|c s IH]; simpl; [done|].
  destruct (is_space c); simpl; [done|].
  split; [|done]. destruct s as [|c' s]; [done|].
  destruct (is_space c'); [done|]. by destruct (split_ws (String c' s)).
Qed.

(** ** The meta-refresh matcher *)

Lemma is_dot_false c : is_dot c = false → c = newline.
Proof.
  unfold is_dot. intros H. apply negb_false_iff in H.
  by apply Ascii.eqb_eq in H.
Qed.

Lemma dot_plus_eol_spec s target :
  dot_plus_eol s = Some target ↔
  ∃ tail, s = target +:+ tail ∧ target ≠ "" ∧
    all_chars is_dot target = true ∧ (tail = "" ∨ tail = String newline "").
Proof.
  unfold dot_plus_eol. split.
  - pose proof (take_drop_while is_dot s) as Hs.
    pose proof (all_chars_take_while is_dot s) as Ha.
    pose proof (drop_while_head is_dot s) as Hh.
    destruct (take_while is_dot s) as [|c t] eqn:Et; [done|].
    destruct (drop_while is_dot s) as [|c' [|c'' d]] eqn:Ed; [| |done].
    + intros [= <-]. exists "". rewrite <- Hs. auto.
    + intros [= <-]. exists (String c' ""). rewrite <- Hs.
      apply is_dot_false in Hh as ->. auto.
  - intros (tail & -> & Hne & Ha & Ht).
    destruct (take_while_app is_dot target tail Ha) as [-> ->].
    { destruct Ht as [-> | ->]; done. }
    destruct target; [done|]. by destruct Ht as [-> | ->].
Qed.

Lemma url_keyword_spec s rest :
  url_keyword s = Some rest ↔
  ∃ kw, s = kw +:+ "=" +:+ rest ∧ lower kw = "url".
Proof.
  unfold url_keyword. split.
  - destruct s as [|u [|r [|l [|e s]]]]; try done.
    destruct (Ascii.eqb_spec (lower_char u) "u") as [Hu|]; [|done].
    destruct (Ascii.eqb_spec (lower_char r) "r") as [Hr|]; [|done].
    destruct (Ascii.eqb_spec (lower_char l) "l") as [Hl|]; [|done].
    destruct (Ascii.eqb_spec e "=") as [->|]; [|done].
    intros [= <-]. exists (String u (String r (String l ""))).
    split; [done|]. simpl. by rewrite Hu, Hr, Hl.
  - intros (kw & -> & Hkw).
    destruct kw as [|u [|r [|l [|x kw]]]]; try done.
    simpl in Hkw. injection Hkw as Hu Hr Hl.
    rewrite !string_app_cons, string_app_nil_l, Hu, Hr, Hl. done.
Qed.

(** C3, the claim as stated fails: the target found in ["5;url= x "] is
    [" x "], blanks included, not the trimmed ["x"]. *)
Lemma refresh_target_not_trimmed :
  refresh_re_match "5;url= x " = Some " x " ∧
  strip_ws " x " = "x" ∧
  refresh_re_match "5;url= x " ≠ Some (strip_ws " x ").
Proof. vm_compute. repeat split; congruence. Qed.

(** C3, amended: [refresh_re_match] finds a target exactly in the values
    made of a non-empty run of digits, a semicolon, optional white space,
    the keyword [url] in any case, an equals sign, and a non-empty target
    without newline that runs to the end of the value or to the newline
    ending it; the target is what it yields, as it stands, untrimmed. Every
    other value yields no match. *)
Theorem refresh_re_match_spec (value target : string) :
  refresh_re_match value = Some target ↔
  ∃ delay ws kw tail : string,
    value = delay +:+ ";" +:+ ws +:+ kw +:+ "=" +:+ target +:+ tail ∧
    delay ≠ "" ∧ all_chars is_digit delay = true ∧
    all_chars is_space ws = true ∧
    lower kw = "url" ∧
    target ≠ "" ∧ all_chars is_dot target = true ∧
    (tail = "" ∨ tail = String newline "").
Proof.
  unfold refresh_re_match. split.
  - pose proof (take_drop_while is_digit value) as Hv.
    pose proof (all_chars_take_while is_digit value) as Hd.
    destruct (take_while is_digit value) as [|d0 d] eqn:Ed; [done|].
    destruct (drop_while is_digit value) as [|semi rest] eqn:Er; [done|].
    destruct (Ascii.eqb_spec semi ";") as [->|]; [|done].
    pose proof (take_drop_while is_space rest) as Hrest.
    pose proof (all_chars_take_while is_space rest) as Hws.
    destruct (url_keyword (drop_while is_space rest)) as [tgt|] eqn:Ek;
      [|done].
    apply url_keyword_spec in Ek as (kw & Ek & Hkw).
    intros (tail & -> & Hne & Hdot & Ht)%dot_plus_eol_spec.
    exists (String d0 d), (take_while is_space rest), kw, tail.
    repeat split; try done.
    rewrite <- Hv. f_equal. rewrite string_app_cons, string_app_nil_l.
    f_equal. rewrite <- Hrest at 1. f_equal. by rewrite Ek.
  - intros (delay & ws & kw & tail & -> & Hne & Hd & Hws & Hkw & Ht).
    destruct (take_while_app is_digit delay
                (";" +:+ ws +:+ kw +:+ "=" +:+ target +:+ tail) Hd)
      as [-> ->]; [done|].
    destruct delay; [done|].
    rewrite string_app_cons, string_app_nil_l. simpl.
    destruct (take_while_app is_space ws
                (kw +:+ "=" +:+ target +:+ tail) Hws) as [_ ->].
    { destruct kw as [|u kw]; [done|]. rewrite string_app_cons.
      simpl in Hkw. injection Hkw as Hu _.
      destruct (is_space u) eqn:E; [|done].
      by apply is_space_not_url_start in E. }
    assert (url_keyword (kw +:+ "=" +:+ target +:+ tail)
            = Some (target +:+ tail)) as ->.
    { apply url_keyword_spec. by exists kw. }
    apply dot_plus_eol_spec. exists tail. tauto.
Qed.

(** ** The robots-directive extractor *)

Lemma mem_spec x l : mem x l = true ↔ x ∈ l.
Proof. unfold mem. by rewrite bool_decide_eq_true. Qed.

Lemma mem_one x a : mem x [a] = true ↔ x = a.
Proof. by rewrite mem_spec, list_elem_of_singleton. Qed.

Lemma mem_two x a b : mem x [a; b] = true ↔ x = a ∨ x = b.
Proof. by rewrite mem_spec, elem_of_cons, list_elem_of_singleton. Qed.

(** The general rule of [MetaRobotsFinder.start_element]: on a meta tag
    named [robots] whose content is a text, the content is split on commas
    and each token lowered; [follow] is false exactly when a token is
    [nofollow], [index] is false exactly when a token is [noindex], and the
    scan is stopped. *)
Lemma robots_meta_flags self attrs content text l c :
  get attrs "name" = Some "robots" →
  get_default attrs "content" "" = Some content →
  MetaRobotsFinder.start_element self "meta" attrs text l c =
    ({| MetaRobotsFinder.follow :=
          negb (mem "nofollow" (lower <$> split_on "," content));
        MetaRobotsFinder.index :=
          negb (mem "noindex" (lower <$> split_on "," content)) |},
     Raise StopParse).
Proof.
  intros Hn Hc. unfold MetaRobotsFinder.start_element, get_lower.
  rewrite Hn, Hc. simpl. by rewrite split_on_comma_lower.
Qed.

(** Once a finder has raised, the scan is over: the tag events that follow
    are not delivered. *)
Lemma feed_robots_stops self ev evs self' e :
  MetaRobotsFinder.start_element self (ev_tag ev) (ev_attrs ev) (ev_text ev)
    (ev_line ev) (ev_column ev) = (self', Raise e) →
  feed_robots self (ev :: evs) = (self', Raise e).
Proof. intros H. simpl. by rewrite H. Qed.

(** C1, the code at the claim's own tag event: the content
    ["noindex, nofollow"] is split into ["noindex"] and [" nofollow"], the
    blank kept, so [index] becomes false, [follow] stays true, and the scan
    stops. *)
Theorem robots_blank_after_comma :
  MetaRobotsFinder.start_element MetaRobotsFinder.init "meta"
    (attrs_of [("name", Some "robots");
               ("content", Some "noindex, nofollow")]) "" 1 1
  = ({| MetaRobotsFinder.follow := true; MetaRobotsFinder.index := false |},
     Raise StopParse).
Proof. vm_compute. reflexivity. Qed.

(** ** The URL-bearing meta test *)

(** C4, the claim as stated fails: the content attribute is accepted with
    no http-equiv value at all when the scheme attribute is [dcterms.uri]. *)
Lemma is_meta_url_scheme_dcterms :
  let attrs := attrs_of [("scheme", Some "DCTERMS.URI");
                         ("content", Some "http://example.com/")] in
  attrs !! "http-equiv" = None ∧ is_meta_url "content" attrs = Ok true.
Proof. vm_compute. split; reflexivity. Qed.

(** C4, amended: the test accepts the content attribute exactly when the
    http-equiv value lowered is [refresh] or the scheme value lowered is
    [dcterms.uri] (an absent value counting as empty, both values being
    texts); it accepts the href attribute exactly when the rel value
    lowered is [shortcut icon] or [icon]; it rejects every other
    attribute. *)
Theorem is_meta_url_spec (attr : string) (attrs : attrs_t) :
  (is_meta_url attr attrs = Ok true ↔
     (attr = "content" ∧
      ∃ equiv scheme,
        get_default attrs "http-equiv" "" = Some equiv ∧
        get_default attrs "scheme" "" = Some scheme ∧
        (lower equiv = "refresh" ∨ lower scheme = "dcterms.uri"))
     ∨ (attr = "href" ∧
        ∃ rel, get_default attrs "rel" "" = Some rel ∧
          (lower rel = "shortcut icon" ∨ lower rel = "icon")))
  ∧ (attr ≠ "content" → attr ≠ "href" → is_meta_url attr attrs = Ok false).
Proof.
  unfold is_meta_url, get_lower. split.
  - destruct (decide (attr = "content")) as [->|Hc].
    + rewrite bool_decide_eq_true_2 by done.
      rewrite (bool_decide_eq_false_2 ("content" = "href")) by done.
      destruct (get_default attrs "http-equiv" "") as [e|]; simpl.
      2:{ split; [done|]. intros [(_ & ? & ? & ? & _)|[? _]]; done. }
      destruct (get_default attrs "scheme" "") as [s|]; simpl.
      2:{ split; [done|]. intros [(_ & ? & ? & _ & ? & _)|[? _]]; done. }
      split.
      * intros [= H]. left. split; [done|]. exists e, s.
        repeat split. apply orb_true_iff in H as [H|H];
          apply mem_one in H; auto.
      * intros [(_ & e' & s' & [= <-] & [= <-] & H)|[? _]]; [|done].
        f_equal. apply orb_true_iff.
        destruct H as [H|H]; [left|right]; by apply mem_one.
    + rewrite (bool_decide_eq_false_2 (attr = "content")) by done. simpl.
      destruct (decide (attr = "href")) as [->|Hh].
      * rewrite bool_decide_eq_true_2 by done.
        destruct (get_default attrs "rel" "") as [r|]; simpl.
        2:{ split; [done|]. intros [[? _]|(_ & ? & ? & _)]; done. }
        split.
        -- intros [= H]. right. split; [done|]. exists r. split; [done|].
           by apply mem_two in H.
        -- intros [[? _]|(_ & r' & [= <-] & H)]; [done|].
           f_equal. by apply mem_two.
      * rewrite bool_decide_eq_false_2 by done.
        split; [done|]. intros [[? _]|[? _]]; done.
  - intros Hc Hh. by rewrite !bool_decide_eq_false_2.
Qed.

(** ** Calls of the sink *)

Lemma bind_ret_l {A B} (a : A) (k : A → emit B) : bind (ret a) k = k a.
Proof. unfold bind, ret. by destruct (k a). Qed.

Lemma bind_ret_r (m : emit unit) : bind m (λ _, ret tt) = m.
Proof.
  destruct m as [cs [[]|e]]; simpl; [|done]. by rewrite app_nil_r.
Qed.

Lemma bind_raise {A B} e (k : A → emit B) : bind (raise e) k = raise e.
Proof. done. Qed.

Lemma elem_of_bind {A B} (m : emit A) (k : A → emit B) call :
  call ∈ (bind m k).1 →
  call ∈ m.1 ∨ ∃ a, m.2 = Ok a ∧ call ∈ (k a).1.
Proof.
  destruct m as [cs [a|e]]; simpl; [|auto].
  destruct (k a) as [cs' r] eqn:E; simpl.
  intros [H|H]%elem_of_app; [auto|]. right. exists a. by rewrite E.
Qed.

Lemma elem_of_for_each {A} (l : list A) (body : A → emit unit) call :
  call ∈ (for_each l body).1 → ∃ x, x ∈ l ∧ call ∈ (body x).1.
Proof.
  induction l as [|x l IH]; simpl.
  - by intros ?%elem_of_nil.
  - intros [H|(_ & _ & H)]%elem_of_bind.
    + exists x. split; [left|done].
    + destruct (IH H) as (y & ? & ?). exists y. split; [by right|done].
Qed.

(** A loop whose body does nothing. *)
Lemma for_each_skip {A} (l : list A) (body : A → emit unit) :
  (∀ x, x ∈ l → body x = ret tt) → for_each l body = ret tt.
Proof.
  induction l as [|x l IH]; intros H; simpl; [done|].
  rewrite H by left. rewrite bind_ret_l. apply IH.
  intros y Hy. apply H. by right.
Qed.

(** A loop whose body does nothing but for one element. *)
Lemma for_each_single {A} (l : list A) (a : A) (body : A → emit unit) :
  NoDup l → a ∈ l → (∀ x, x ∈ l → x ≠ a → body x = ret tt) →
  for_each l body = body a.
Proof.
  induction l as [|x l IH]; intros Hnd Ha H; [by apply elem_of_nil in Ha|].
  apply NoDup_cons in Hnd as [Hx Hnd]. simpl.
  apply elem_of_cons in Ha as [->|Ha].
  - rewrite (for_each_skip l body); [apply bind_ret_r|].
    intros y Hy. apply H; [by right|]. by intros ->.
  - rewrite H; [|left|by intros ->]. rewrite bind_ret_l.
    apply IH; [done..|]. intros y Hy. apply H. by right.
Qed.

(** A loop that raises at the first element on which its body does. *)
Lemma for_each_raise {A} (pre : list A) (x : A) (post : list A)
    (body : A → emit unit) (f : A → sink_call) e :
  (∀ y, y ∈ pre → body y = ([f y], Ok tt)) →
  body x = raise e →
  for_each (pre ++ x :: post) body = (f <$> pre, Raise e).
Proof.
  intros Hpre Hx. induction pre as [|y pre IH]; simpl.
  - by rewrite Hx.
  - rewrite Hpre by left. simpl. rewrite IH; [done|].
    intros z Hz. apply Hpre. by right.
Qed.

Lemma for_each_found_url {A} (l0 : list A) (f : A → option string)
    nm bs l c :
  for_each l0 (λ x, LinkFinder.found_url (f x) nm bs l c)
  = ((λ x, SinkCall (f x) l c nm bs) <$> l0, Ok tt).
Proof.
  induction l0 as [|x l0 IH]; [done|]. simpl. by rewrite IH.
Qed.

(** ** Value decomposition *)

(** C9: when the value of a srcset attribute has a segment between commas
    with no character that is not white space, [parse_tag] raises
    IndexError at the first such segment, having sent to the sink the first
    token of each segment before it; the loop ends there, with no fallback.
    So it is for the trailing comma of ["a.jpg 1x,"]. *)
Theorem srcset_blank_segment_raises (unquote : string → string)
    (tag value nm bs : string) (l c : Z) (pre : list string)
    (seg : string) (post : list string) :
  tag ≠ "meta" →
  split_on "," value = pre ++ seg :: post →
  (∀ s, s ∈ pre → all_chars is_space s = false) →
  all_chars is_space seg = true →
  LinkFinder.parse_tag unquote tag "srcset" (Some value) (Some nm) (Some bs)
    l c
  = ((λ s, SinkCall (Some (default "" (head (split_ws s)))) l c nm bs)
       <$> pre,
     Raise IndexError).
Proof.
  intros Htag Hsplit Hpre Hseg. unfold LinkFinder.parse_tag.
  rewrite (bool_decide_eq_false_2 (tag = "meta")) by done. simpl.
  rewrite Hsplit.
  rewrite (for_each_raise pre seg post _
             (λ s, SinkCall (Some (default "" (head (split_ws s)))) l c nm bs)
             IndexError); [done| |].
  - intros s Hs. specialize (Hpre s Hs).
    destruct (split_ws s) as [|u us] eqn:E; [|done].
    apply split_ws_nil in E. congruence.
  - apply split_ws_nil in Hseg. by rewrite Hseg.
Qed.

Lemma srcset_trailing_comma_raises :
  LinkFinder.parse_tag strip_quotes "img" "srcset" (Some "a.jpg 1x,")
    (Some "") (Some "") 1 1
  = ([SinkCall (Some "a.jpg") 1 1 "" ""], Raise IndexError).
Proof.
  apply (srcset_blank_segment_raises strip_quotes "img" "a.jpg 1x," "" ""
           1 1 ["a.jpg 1x"] "" []).
  - done.
  - reflexivity.
  - intros s ->%list_elem_of_singleton. reflexivity.
  - reflexivity.
Defined.

(** C10: for an archive attribute that is present with the value [None],
    [parse_tag] raises AttributeError (the value has no [split]) and sends
    nothing to the sink, whatever the tag; the attributes that are neither
    archive nor srcset send one candidate whose url is [None]. So does the
    tag event of an applet whose archive has no value end in the error. *)
Theorem archive_without_value_raises (unquote : string → string)
    (tag nm bs : string) (l c : Z) :
  LinkFinder.parse_tag unquote tag "archive" None (Some nm) (Some bs) l c
    = ([], Raise AttributeError)
  ∧ (∀ attr, attr ≠ "archive" → attr ≠ "srcset" →
     LinkFinder.parse_tag unquote tag attr None (Some nm) (Some bs) l c
       = ([SinkCall None l c nm bs], Ok tt))
  ∧ (LinkFinder.start_element unquote elements (LinkFinder.init LinkTags [])
       "applet" (attrs_of [("archive", None)]) "" l c).2
      = ([], Raise AttributeError).
Proof.
  split; [|split].
  - unfold LinkFinder.parse_tag. simpl. rewrite andb_false_r. simpl.
    by destruct (bool_decide (tag = "meta")).
  - intros attr Ha Hs. unfold LinkFinder.parse_tag. simpl.
    rewrite !andb_false_r.
    by rewrite (bool_decide_eq_false_2 (attr = "archive")),
      (bool_decide_eq_false_2 (attr = "srcset")).
  - vm_compute. reflexivity.
Qed.

(** ** The order of iteration *)

Lemma sorted_Sorted iter X : Sorted String.le (LinkFinder.sorted iter X).
Proof. apply (Sorted_merge_sort String.le). Qed.

Lemma sorted_Permutation iter X :
  set_order iter → LinkFinder.sorted iter X ≡ₚ elements X.
Proof.
  intros H. unfold LinkFinder.sorted.
  by rewrite (merge_sort_Permutation String.le), (H X).
Qed.

Lemma sorted_NoDup iter X : set_order iter → NoDup (LinkFinder.sorted iter X).
Proof.
  intros H. rewrite (sorted_Permutation iter X H). apply NoDup_elements.
Qed.

Lemma elem_of_sorted iter X a :
  set_order iter → a ∈ LinkFinder.sorted iter X ↔ a ∈ X.
Proof.
  intros H. rewrite (sorted_Permutation iter X H). apply elem_of_elements.
Qed.

(** [sorted] of a set does not depend on the order in which the set is
    iterated. *)
Lemma sorted_order_irrelevant iter1 iter2 X :
  set_order iter1 → set_order iter2 →
  LinkFinder.sorted iter1 X = LinkFinder.sorted iter2 X.
Proof.
  intros H1 H2. apply (Sorted_unique String.le); [apply sorted_Sorted..|].
  by rewrite (sorted_Permutation iter1 X H1), (sorted_Permutation iter2 X H2).
Qed.

Lemma set_order_elements : set_order elements.
Proof. by intros X. Qed.

Lemma set_order_reverse : set_order (λ X, reverse (elements X)).
Proof. intros X. apply reverse_Permutation. Qed.

(** The attributes that [init] gives a tag: those of the table for the tag
    together with those of the table for every tag. *)
Lemma init_tagattrs (table : tag_table) ic tag :
  default (LinkFinder.universal_attrs (LinkFinder.init table ic))
    (LinkFinder.tags (LinkFinder.init table ic) !! Some tag)
  = list_to_set (default [] (table !! Some tag))
    ∪ list_to_set (default [] (table !! None)).
Proof.
  unfold LinkFinder.init. simpl. rewrite lookup_fmap.
  destruct (table !! Some tag) as [l|]; simpl; [done|].
  by rewrite union_empty_l_L.
Qed.

(** ** Determinism *)

Lemma start_element_order_irrelevant unquote iter1 iter2 self tag attrs
    text l c :
  set_order iter1 → set_order iter2 →
  LinkFinder.start_element unquote iter1 self tag attrs text l c
  = LinkFinder.start_element unquote iter2 self tag attrs text l c.
Proof.
  intros H1 H2. unfold LinkFinder.start_element.
  by rewrite (sorted_order_irrelevant iter1 iter2 _ H1 H2).
Qed.

Lemma feed_order_irrelevant unquote iter1 iter2 self evs :
  set_order iter1 → set_order iter2 →
  feed unquote iter1 self evs = feed unquote iter2 self evs.
Proof.
  intros H1 H2. revert self. induction evs as [|ev evs IH]; intros self.
  - done.
  - simpl.
    rewrite (start_element_order_irrelevant unquote iter1 iter2 _ _ _ _ _ _
               H1 H2).
    destruct (LinkFinder.start_element unquote iter2 self (ev_tag ev)
                (ev_attrs ev) (ev_text ev) (ev_line ev) (ev_column ev))
      as [self' [cs [[]|e]]]; [|done].
    by rewrite IH.
Qed.

Lemma existsb_mem (l ic : list string) :
  existsb (λ item, mem item ic) l = true ↔ ∃ tok, tok ∈ l ∧ tok ∈ ic.
Proof.
  rewrite existsb_exists. split.
  - intros (tok & ?%list_elem_of_In & ?%mem_spec). eauto.
  - intros (tok & ? & ?). exists tok. by rewrite <- list_elem_of_In, mem_spec.
Qed.

(** C7: two scans of the same tag events by link finders built from the
    same rule table and ignore classes make the same calls of the sink in
    the same order, and end alike, in whatever order their sets happen to
    be iterated. Within one tag event the loop runs over the list of the
    link-bearing attributes of the tag (those of the rule table for the
    tag, or for every tag) that are present on the tag, each once, in
    ascending order; the one tag event without loop, and without call, is
    that of an anchor one of whose classes is to be ignored. *)
Theorem feed_deterministic (unquote : string → string)
    (iter1 iter2 : gset string → list string)
    (table : tag_table) (ic : list string) (evs : list tag_event) :
  set_order iter1 → set_order iter2 →
  feed unquote iter1 (LinkFinder.init table ic) evs
    = feed unquote iter2 (LinkFinder.init table ic) evs
  ∧ ∀ self tag attrs text l c,
      let r := LinkFinder.start_element unquote iter1 self tag attrs text l c
      in
      ∃ order : list string,
        Sorted String.le order ∧ NoDup order
        ∧ (∀ a, a ∈ order ↔
             a ∈ default (LinkFinder.universal_attrs self)
                   (LinkFinder.tags self !! Some tag)
             ∧ is_Some (attrs !! a))
        ∧ (((tag = "a"
             ∧ ∃ cls tok, attrs !! "class" = Some (Some cls)
                 ∧ tok ∈ split_ws cls
                 ∧ tok ∈ LinkFinder.ignore_classes self)
            ∧ r.2 = ret tt)
           ∨ (¬ (tag = "a"
                 ∧ ∃ cls tok, attrs !! "class" = Some (Some cls)
                     ∧ tok ∈ split_ws cls
                     ∧ tok ∈ LinkFinder.ignore_classes self)
              ∧ r.2 = for_each order
                        (LinkFinder.start_element_attr unquote r.1 tag attrs
                           text l c))).
Proof.
  intros H1 H2. split; [by apply feed_order_irrelevant|].
  intros self tag attrs text l c. cbv zeta.
  exists (LinkFinder.sorted iter1
            (default (LinkFinder.universal_attrs self)
               (LinkFinder.tags self !! Some tag) ∩ dom attrs)).
  split; [apply (sorted_Sorted iter1)|].
  split; [by apply sorted_NoDup|]. split.
  { intros a. rewrite (elem_of_sorted _ _ _ H1), elem_of_intersection.
    by rewrite elem_of_dom. }
  unfold LinkFinder.start_element.
  set (self' := if bool_decide (tag = "base") && _ then _ else self).
  assert (LinkFinder.universal_attrs self' = LinkFinder.universal_attrs self
          ∧ LinkFinder.tags self' = LinkFinder.tags self
          ∧ LinkFinder.ignore_classes self'
            = LinkFinder.ignore_classes self) as (-> & -> & ->).
  { subst self'. by destruct (_ && _). }
  destruct (bool_decide (tag = "a") && truthy (get attrs "class")
            && negb (bool_decide (LinkFinder.ignore_classes self = []))
            && existsb _ _) eqn:E; cbn [fst snd].
  - left. split; [|done].
    apply andb_true_iff in E as [E Hex].
    apply andb_true_iff in E as [E _].
    apply andb_true_iff in E as [Ha Ht].
    apply bool_decide_eq_true in Ha.
    apply existsb_mem in Hex as (tok & Htok & Hic).
    split; [done|]. unfold get in *.
    destruct (attrs !! "class") as [[cls|]|]; try done.
    by exists cls, tok.
  - right. split; [|done].
    intros (-> & cls & tok & Hcls & Htok & Hic).
    unfold get in E. rewrite Hcls in E.
    cbn [default from_option id text_of] in E.
    rewrite (bool_decide_eq_true_2 ("a" = "a")) in E by done.
    assert (truthy (Some cls) = true) as Ht.
    { destruct cls; [by apply elem_of_nil in Htok | done]. }
    rewrite Ht in E.
    rewrite (bool_decide_eq_false_2 (_ = [])) in E.
    2:{ intros E'. rewrite E' in Hic. by apply elem_of_nil in Hic. }
    by rewrite (proj2 (existsb_mem _ _) (ex_intro _ tok (conj Htok Hic)))
      in E.
Qed.

Lemma feed_deterministic_witness :
  feed strip_quotes elements (LinkFinder.init LinkTags [])
    [TagEvent "img"
       (attrs_of [("src", Some "a.png"); ("longdesc", Some "d.html");
                  ("usemap", Some "#m")]) "" 1 1]
  = feed strip_quotes (λ X, reverse (elements X))
      (LinkFinder.init LinkTags [])
      [TagEvent "img"
         (attrs_of [("src", Some "a.png"); ("longdesc", Some "d.html");
                    ("usemap", Some "#m")]) "" 1 1]
  ∧ ∀ self tag attrs text l c,
      let r := LinkFinder.start_element strip_quotes elements self tag
                 attrs text l c
      in
      ∃ order : list string,
        Sorted String.le order ∧ NoDup order
        ∧ (∀ a, a ∈ order ↔
             a ∈ default (LinkFinder.universal_attrs self)
                   (LinkFinder.tags self !! Some tag)
             ∧ is_Some (attrs !! a))
        ∧ (((tag = "a"
             ∧ ∃ cls tok, attrs !! "class" = Some (Some cls)
                 ∧ tok ∈ split_ws cls
                 ∧ tok ∈ LinkFinder.ignore_classes self)
            ∧ r.2 = ret tt)
           ∨ (¬ (tag = "a"
                 ∧ ∃ cls tok, attrs !! "class" = Some (Some cls)
                     ∧ tok ∈ split_ws cls
                     ∧ tok ∈ LinkFinder.ignore_classes self)
              ∧ r.2 = for_each order
                        (LinkFinder.start_element_attr strip_quotes r.1 tag
                           attrs text l c))).
Proof.
  exact (feed_deterministic strip_quotes elements
           (λ X, reverse (elements X)) LinkTags [] _
           set_order_elements set_order_reverse).
Defined.

(** ** Tag events of the link finder *)

(** A tag that is neither base nor a anchor: the finder is unchanged and
    the loop runs. *)
Lemma start_element_plain unquote iter self tag attrs text l c :
  tag ≠ "base" → tag ≠ "a" →
  LinkFinder.start_element unquote iter self tag attrs text l c
  = (self,
     for_each
       (LinkFinder.sorted iter
          (default (LinkFinder.universal_attrs self)
             (LinkFinder.tags self !! Some tag) ∩ dom attrs))
       (LinkFinder.start_element_attr unquote self tag attrs text l c)).
Proof.
  intros Hb Ha. unfold LinkFinder.start_element.
  by rewrite (bool_decide_eq_false_2 (tag = "base")),
    (bool_decide_eq_false_2 (tag = "a")).
Qed.




Lemma LinkTags_link : LinkTags !! Some "link" = Some ["href"].
Proof. vm_compute. reflexivity. Qed.

Lemma LinkTags_universal : LinkTags !! None = Some ["style"; "itemtype"].
Proof. vm_compute. reflexivity. Qed.



(** ** The DNS prefetch hint *)

(** What follows the first [ch] of a text. *)
Lemma after_first_app ch (pre post : string) :
  contains_char ch pre = false →
  contains_char ch (pre +:+ String ch post) = true
  ∧ after_first ch (pre +:+ String ch post) = post.
Proof.
  induction pre as [|x pre IH]; intros H.
  - rewrite string_app_nil_l. simpl. by rewrite Ascii.eqb_refl.
  - simpl in H. apply orb_false_iff in H as [Hx H].
    rewrite string_app_cons. simpl. rewrite Hx.
    destruct (IH H) as [-> ->]. done.
Qed.

Lemma rstrip_repeat ch n : rstrip ch (repeat_char ch n) = "".
Proof.
  induction n as [|n IH]; simpl; [done|].
  by rewrite IH, Ascii.eqb_refl.
Qed.

(** [rstrip] takes away the whole run of [ch] that ends a text. *)
Lemma rstrip_app ch (s : string) c n :
  c ≠ ch →
  rstrip ch (s +:+ String c (repeat_char ch n)) = s +:+ String c "".
Proof.
  intros Hc. induction s as [|x s IH].
  - rewrite !string_app_nil_l. simpl. rewrite rstrip_repeat.
    by rewrite (proj2 (Ascii.eqb_neq c ch)).
  - rewrite !string_app_cons. simpl. rewrite IH.
    destruct s; by rewrite ?string_app_nil_l, ?string_app_cons.
Qed.

Lemma start_element_attr_dns_prefetch unquote self attrs text l c v b :
  attrs !! "rel" = Some (Some "dns-prefetch") →
  attrs !! "href" = Some (Some v) →
  LinkFinder.base_ref self = Some b →
  LinkFinder.start_element_attr unquote self "link" attrs text l c "href"
  = ([SinkCall
        (Some ("dns:" +:+
               rstrip "/" (if contains_char ":" v then after_first ":" v
                           else v)))
        l c "" b], Ok tt).
Proof.
  intros Hrel Hhref Hb.
  unfold LinkFinder.start_element_attr, LinkFinder.get_link_name, get.
  rewrite Hrel, Hhref, Hb. name_cases. cbn [default from_option id].
  name_cases. simpl. unfold LinkFinder.parse_tag. name_cases.
  by destruct b.
Qed.









(** ** The name of a candidate *)

Lemma found_url_call u nm bs l c call :
  call ∈ (LinkFinder.found_url u nm bs l c).1 →
  name call = nm ∧ base call = bs ∧ line call = l ∧ column call = c.
Proof. by intros ->%list_elem_of_singleton. Qed.

(** Every call made by [parse_tag] carries the name, the base and the
    position that [parse_tag] was given. *)
Lemma parse_tag_call unquote tag attr value nm bs l c call :
  call ∈ (LinkFinder.parse_tag unquote tag attr value nm bs l c).1 →
  nm = Some (name call) ∧ bs = Some (base call)
  ∧ line call = l ∧ column call = c.
Proof.
  unfold LinkFinder.parse_tag.
  destruct nm as [nm|], bs as [bs|]; try by intros ?%elem_of_nil.
  assert (∀ u, call ∈ (LinkFinder.found_url u nm bs l c).1 →
    Some nm = Some (name call) ∧ Some bs = Some (base call)
    ∧ line call = l ∧ column call = c) as Hf.
  { intros u (<- & <- & <- & <-)%found_url_call. done. }
  destruct (_ && _).
  { destruct (refresh_re_match _); [by apply Hf|].
    destruct (negb _); [by apply Hf | by intros ?%elem_of_nil]. }
  destruct (_ && _).
  { intros (mo & _ & H)%elem_of_for_each. by apply Hf in H. }
  destruct (bool_decide (attr = "archive")).
  { intros [H|(urls & _ & H)]%elem_of_bind.
    - destruct value; by apply elem_of_nil in H.
    - apply elem_of_for_each in H as (u & _ & H). by apply Hf in H. }
  destruct (bool_decide (attr = "srcset")).
  { intros [H|(urls & _ & H)]%elem_of_bind.
    - destruct value; by apply elem_of_nil in H.
    - apply elem_of_for_each in H as (seg & _ & H).
      destruct (split_ws seg); [by apply elem_of_nil in H | by apply Hf in H]. }
  apply Hf.
Qed.

(** Every call made for one attribute carries the name that
    [get_link_name] computes for it. *)
Lemma start_element_attr_call unquote self tag attrs text l c attr call :
  call ∈ (LinkFinder.start_element_attr unquote self tag attrs text l c
            attr).1 →
  LinkFinder.get_link_name tag attrs attr text = Some (name call).
Proof.
  unfold LinkFinder.start_element_attr.
  intros [H|([] & _ & H)]%elem_of_bind.
  { destruct (bool_decide (tag = "meta")); [|by apply elem_of_nil in H].
    destruct (is_meta_url attr attrs); by apply elem_of_nil in H. }
  { by apply elem_of_nil in H. }
  apply elem_of_bind in H as [H|([] & _ & H)].
  { destruct (bool_decide (tag = "form")); [|by apply elem_of_nil in H].
    destruct (is_form_get attr attrs); by apply elem_of_nil in H. }
  { by apply elem_of_nil in H. }
  apply elem_of_bind in H as [H|(value & _ & H)].
  { destruct (_ && _); [|by apply elem_of_nil in H].
    destruct (get attrs attr); by apply elem_of_nil in H. }
  by apply parse_tag_call in H as (-> & _).
Qed.

(** C5, the claim as stated fails: the name of the candidate of an anchor
    is the text of the element when there is one, whatever the title; and
    an image whose alt is present but empty takes its name from the
    title. *)
Lemma anchor_name_is_element_text :
  (LinkFinder.start_element strip_quotes elements
     (LinkFinder.init LinkTags []) "a"
     (attrs_of [("href", Some "/x"); ("title", Some "T")]) "home" 1 1).2.1
    = [SinkCall (Some "/x") 1 1 "home" ""]
  ∧ (LinkFinder.start_element strip_quotes elements
       (LinkFinder.init LinkTags []) "img"
       (attrs_of [("src", Some "/i"); ("alt", Some ""); ("title", Some "T")])
       "" 1 1).2.1
    = [SinkCall (Some "/i") 1 1 "T" ""]
  ∧ "home" ≠ "T" ∧ "T" ≠ "".
Proof. vm_compute. repeat split; discriminate. Qed.

(** C5, amended: every candidate sent for a tag event comes from one
    attribute of the tag, and its name is: for tag [a] and attribute
    [href], the text of the element if it is not empty, else the title
    attribute if present, else empty; for tag [img], the alt attribute if
    present and not empty, else the title attribute if present, else
    empty; and the empty text for every other pair of tag and attribute. *)
Theorem candidate_name (unquote : string → string)
    (iter : gset string → list string) (self : LinkFinder.t)
    (tag : string) (attrs : attrs_t) (text : string) (l c : Z)
    (call : sink_call) :
  let r := LinkFinder.start_element unquote iter self tag attrs text l c in
  call ∈ r.2.1 →
  ∃ attr,
    call ∈ (LinkFinder.start_element_attr unquote r.1 tag attrs text l c
              attr).1
    ∧ name call =
        if bool_decide (tag = "a" ∧ attr = "href") then
          if bool_decide (text = "") then text_of (get attrs "title")
          else text
        else if bool_decide (tag = "img") then
          if truthy (get attrs "alt") then text_of (get attrs "alt")
          else text_of (get attrs "title")
        else "".
Proof.
  cbv zeta. unfold LinkFinder.start_element.
  set (self' := if bool_decide (tag = "base") && _ then _ else self).
  destruct (_ && _ && _ && _); cbn [fst snd].
  { by intros ?%elem_of_nil. }
  intros (attr & _ & H)%elem_of_for_each. exists attr. split; [done|].
  apply start_element_attr_call in H. revert H.
  unfold LinkFinder.get_link_name, get_default, get, text_of.
  destruct (decide (tag = "a")) as [->|Ha];
    [destruct (decide (attr = "href")) as [->|Hh]|].
  - rewrite !bool_decide_eq_true_2 by done. simpl.
    destruct text; simpl; [|congruence].
    destruct (attrs !! "title") as [[t|]|]; simpl; congruence.
  - rewrite (bool_decide_eq_false_2 (attr = "href")) by done.
    rewrite (bool_decide_eq_false_2 (_ ∧ _)) by (by intros [_ ?]).
    simpl. congruence.
  - rewrite (bool_decide_eq_false_2 (tag = "a")) by done.
    rewrite (bool_decide_eq_false_2 (_ ∧ _)) by (by intros [? _]).
    simpl. destruct (bool_decide (tag = "img")); [|congruence].
    destruct (attrs !! "alt") as [[[|x a]|]|]; simpl; try congruence;
      destruct (attrs !! "title") as [[t|]|]; simpl; congruence.
Qed.

Lemma candidate_name_example :
  ∃ attr,
    SinkCall (Some "/x") 1 1 "T" ""
      ∈ (LinkFinder.start_element_attr strip_quotes
           (LinkFinder.start_element strip_quotes elements
              (LinkFinder.init LinkTags []) "a"
              (attrs_of [("href", Some "/x"); ("title", Some "T")])
              "" 1 1).1
           "a" (attrs_of [("href", Some "/x"); ("title", Some "T")])
           "" 1 1 attr).1
    ∧ name (SinkCall (Some "/x") 1 1 "T" "") =
        if bool_decide ("a" = "a" ∧ attr = "href") then
          if bool_decide ("" = "")
          then text_of (get (attrs_of [("href", Some "/x");
                                       ("title", Some "T")]) "title")
          else ""
        else if bool_decide ("a" = "img") then
          if truthy (get (attrs_of [("href", Some "/x");
                                    ("title", Some "T")]) "alt")
          then text_of (get (attrs_of [("href", Some "/x");
                                       ("title", Some "T")]) "alt")
          else text_of (get (attrs_of [("href", Some "/x");
                                       ("title", Some "T")]) "title")
        else "".
Proof.
  apply (candidate_name strip_quotes elements (LinkFinder.init LinkTags [])
           "a" (attrs_of [("href", Some "/x"); ("title", Some "T")])
           "" 1 1 (SinkCall (Some "/x") 1 1 "T" "")).
  vm_compute. left.
Defined.

(** ** The document base *)

Lemma start_element_base_ref unquote iter self tag attrs text l c :
  LinkFinder.base_ref
    (LinkFinder.start_element unquote iter self tag attrs text l c).1
  = if bool_decide (tag = "base") && negb (truthy (LinkFinder.base_ref self))
    then get_default attrs "href" "" else LinkFinder.base_ref self.
Proof.
  unfold LinkFinder.start_element.
  destruct (bool_decide (tag = "base") && _); by destruct (_ && _ && _ && _).
Qed.

Lemma feed_cons unquote iter self ev evs :
  let r := LinkFinder.start_element unquote iter self (ev_tag ev)
             (ev_attrs ev) (ev_text ev) (ev_line ev) (ev_column ev) in
  (feed unquote iter self (ev :: evs)).1
  = match r.2.2 with
    | Ok _ => (feed unquote iter r.1 evs).1
    | Raise _ => r.1
    end.
Proof.
  simpl.
  destruct (LinkFinder.start_element _ _ _ _ _ _ _ _) as [s [cs [[]|e]]];
    simpl; [|done].
  by destruct (feed unquote iter s evs) as [s' [cs' r']].
Qed.

(** A base that is a non-empty text is kept by every tag event. *)
Lemma feed_base_ref_kept unquote iter self evs :
  truthy (LinkFinder.base_ref self) = true →
  LinkFinder.base_ref (feed unquote iter self evs).1
  = LinkFinder.base_ref self.
Proof.
  revert self. induction evs as [|ev evs IH]; intros self H; [done|].
  rewrite feed_cons. cbv zeta.
  pose proof (start_element_base_ref unquote iter self (ev_tag ev)
                (ev_attrs ev) (ev_text ev) (ev_line ev) (ev_column ev)) as Hb.
  rewrite H, andb_false_r in Hb.
  destruct (LinkFinder.start_element _ _ _ _ _ _ _ _) as [s [cs [[]|e]]];
    simpl in *; [|done].
  rewrite IH; [done|]. by rewrite Hb.
Qed.

(** Base tags without a non-empty href leave an empty base empty. *)
Lemma feed_base_ref_open unquote iter self evs :
  truthy (LinkFinder.base_ref self) = false →
  (∀ e, e ∈ evs → ev_tag e = "base" →
        truthy (get_default (ev_attrs e) "href" "") = false) →
  truthy (LinkFinder.base_ref (feed unquote iter self evs).1) = false.
Proof.
  revert self. induction evs as [|ev evs IH]; intros self H Hevs; [done|].
  rewrite feed_cons. cbv zeta.
  pose proof (start_element_base_ref unquote iter self (ev_tag ev)
                (ev_attrs ev) (ev_text ev) (ev_line ev) (ev_column ev)) as Hb.
  assert (truthy (LinkFinder.base_ref
            (LinkFinder.start_element unquote iter self (ev_tag ev)
               (ev_attrs ev) (ev_text ev) (ev_line ev) (ev_column ev)).1)
          = false) as Hs.
  { rewrite Hb. destruct (bool_decide_reflect (ev_tag ev = "base")) as [E|_];
      simpl; [|done].
    rewrite H. simpl. apply Hevs; [left|done]. }
  destruct (LinkFinder.start_element _ _ _ _ _ _ _ _) as [s [cs [[]|e]]];
    simpl in *; [|done].
  apply IH; [done|]. intros e He. apply Hevs. by right.
Qed.

(** When the scan of [evs1] ends without exception, the scan goes on. *)
Lemma feed_app_ok unquote iter self evs1 evs2 :
  (feed unquote iter self evs1).2.2 = Ok tt →
  (feed unquote iter self (evs1 ++ evs2)).1
  = (feed unquote iter (feed unquote iter self evs1).1 evs2).1.
Proof.
  revert self. induction evs1 as [|ev evs1 IH]; intros self H; [done|].
  rewrite <- app_comm_cons, !feed_cons. cbv zeta.
  simpl in H.
  destruct (LinkFinder.start_element _ _ _ _ _ _ _ _) as [s [cs [[]|e]]];
    simpl in *; [|done].
  apply IH. by destruct (feed unquote iter s evs1) as [s' [cs' r']].
Qed.

(** C6, the claim as stated fails: after a first base tag without href the
    base is the empty text, and the base tag that follows changes it. *)
Lemma base_ref_changed_after_first_base :
  LinkFinder.base_ref
    (feed strip_quotes elements (LinkFinder.init LinkTags [])
       [TagEvent "base" (attrs_of []) "" 1 1]).1
    = Some ""
  ∧ LinkFinder.base_ref
      (feed strip_quotes elements (LinkFinder.init LinkTags [])
         [TagEvent "base" (attrs_of []) "" 1 1;
          TagEvent "base" (attrs_of [("href", Some "http://x/")]) "" 2 1]).1
    = Some "http://x/".
Proof. vm_compute. split; reflexivity. Qed.

(** C6, amended: the document base is set to a non-empty text at most
    once, by the first base tag delivered whose href value is a non-empty
    text (base tags before it, whose href is absent, empty or without
    value, leave the base open), and no tag event delivered after that tag
    ever changes it. *)
Theorem base_ref_set_once (unquote : string → string)
    (iter : gset string → list string) (self : LinkFinder.t)
    (evs1 : list tag_event) (ev : tag_event) (evs2 : list tag_event) :
  truthy (LinkFinder.base_ref self) = false →
  (∀ e, e ∈ evs1 → ev_tag e = "base" →
        truthy (get_default (ev_attrs e) "href" "") = false) →
  (feed unquote iter self evs1).2.2 = Ok tt →
  ev_tag ev = "base" →
  truthy (get_default (ev_attrs ev) "href" "") = true →
  LinkFinder.base_ref (feed unquote iter self (evs1 ++ ev :: evs2)).1
  = get_default (ev_attrs ev) "href" "".
Proof.
  intros Hself Hevs1 Hok Htag Hhref.
  rewrite feed_app_ok by done. rewrite feed_cons. cbv zeta.
  pose proof (feed_base_ref_open unquote iter self evs1 Hself Hevs1) as Hopen.
  pose proof (start_element_base_ref unquote iter
                (feed unquote iter self evs1).1 (ev_tag ev)
                (ev_attrs ev) (ev_text ev) (ev_line ev) (ev_column ev)) as Hb.
  rewrite Hopen, (bool_decide_eq_true_2 _ Htag) in Hb. simpl in Hb.
  destruct (LinkFinder.start_element _ _ _ _ _ _ _ _) as [s [cs [[]|e]]];
    simpl in *; [|done].
  rewrite feed_base_ref_kept; [done|]. by rewrite Hb.
Qed.

Lemma base_ref_set_once_example :
  LinkFinder.base_ref
    (feed strip_quotes elements (LinkFinder.init LinkTags [])
       ([TagEvent "base" (attrs_of []) "" 1 1]
        ++ TagEvent "base" (attrs_of [("href", Some "http://x/")]) "" 2 1
        :: [TagEvent "base" (attrs_of [("href", Some "http://y/")]) "" 3 1;
            TagEvent "a" (attrs_of [("href", Some "z")]) "z" 4 1])).1
  = get_default
      (ev_attrs (TagEvent "base" (attrs_of [("href", Some "http://x/")])
                   "" 2 1)) "href" "".
Proof.
  apply (base_ref_set_once strip_quotes elements
           (LinkFinder.init LinkTags [])
           [TagEvent "base" (attrs_of []) "" 1 1]
           (TagEvent "base" (attrs_of [("href", Some "http://x/")]) "" 2 1)
           [TagEvent "base" (attrs_of [("href", Some "http://y/")]) "" 3 1;
            TagEvent "a" (attrs_of [("href", Some "z")]) "z" 4 1]).
  - reflexivity.
  - intros e ->%list_elem_of_singleton _. reflexivity.
  - vm_compute. reflexivity.
  - reflexivity.
  - reflexivity.
Defined.

(** ** The tag events of the specification *)

Example srcset_trailing_comma_event :
  (LinkFinder.start_element strip_quotes elements
     (LinkFinder.init LinkTags []) "img"
     (attrs_of [("srcset", Some "a.jpg 1x,")]) "" 1 1).2
  = ([SinkCall (Some "a.jpg") 1 1 "" ""], Raise IndexError).
Proof. vm_compute. reflexivity. Qed.

Example srcset_two_candidates :
  url <$> (LinkFinder.start_element strip_quotes elements
             (LinkFinder.init LinkTags []) "img"
             (attrs_of [("srcset", Some "a.jpg 1x, b.jpg 2x")]) "" 1 1).2.1
  = [Some "a.jpg"; Some "b.jpg"].
Proof. vm_compute. reflexivity. Qed.

Example style_two_candidates :
  url <$> (LinkFinder.start_element strip_quotes elements
             (LinkFinder.init LinkTags []) "div"
             (attrs_of
                [("style",
                  Some "background: url('a.png'); color: red; background-image:url(b.png)")])
             "" 1 1).2.1
  = [Some "a.png"; Some "b.png"].
Proof. vm_compute. reflexivity. Qed.

Example meta_refresh_candidate :
  url <$> (LinkFinder.start_element strip_quotes elements
             (LinkFinder.init LinkTags []) "meta"
             (attrs_of [("http-equiv", Some "refresh");
                        ("content", Some "5;url=https://example.com/")])
             "" 1 1).2.1
  = [Some "https://example.com/"]
  ∧ (LinkFinder.start_element strip_quotes elements
       (LinkFinder.init LinkTags []) "meta"
       (attrs_of [("name", Some "description"); ("content", Some "hello")])
       "" 1 1).2
    = ([], Ok tt).
Proof. vm_compute. split; reflexivity. Qed.

Example anchor_ignored_by_class :
  (LinkFinder.start_element strip_quotes elements
     (LinkFinder.init LinkTags ["nav"]) "a"
     (attrs_of [("class", Some "nav"); ("href", Some "/x")]) "" 1 1).2
  = ([], Ok tt)
  ∧ url <$> (LinkFinder.start_element strip_quotes elements
               (LinkFinder.init LinkTags []) "a"
               (attrs_of [("class", Some "nav"); ("href", Some "/x")])
               "" 1 1).2.1
    = [Some "/x"].
Proof. vm_compute. split; reflexivity. Qed.

Example robots_body_first :
  feed_robots MetaRobotsFinder.init
    [TagEvent "html" (attrs_of []) "" 1 1;
     TagEvent "body" (attrs_of []) "" 2 1;
     TagEvent "meta"
       (attrs_of [("name", Some "robots"); ("content", Some "noindex")])
       "" 3 1]
  = (MetaRobotsFinder.init, Raise StopParse).
Proof. vm_compute. reflexivity. Qed.

(** * Further properties *)

(** ** Removing comments *)

Lemma has_comment_end_tail c s :
  has_comment_end (String c s) = false → has_comment_end s = false.
Proof. simpl. by intros [_ ?]%orb_false_iff. Qed.

Lemma has_comment_start_tail c s :
  has_comment_start (String c s) = false → has_comment_start s = false.
Proof. simpl. by intros [_ ?]%orb_false_iff. Qed.

Lemma strip_outside_step c d s :
  strip_c_comments_from false (String c (String d s))
  = if Ascii.eqb c "/" && Ascii.eqb d "*" && has_comment_end s
    then strip_c_comments_from true s
    else String c (strip_c_comments_from false (String d s)).
Proof. reflexivity. Qed.

Lemma strip_inside_step c d s :
  strip_c_comments_from true (String c (String d s))
  = if Ascii.eqb c "*" && Ascii.eqb d "/"
    then strip_c_comments_from false s
    else strip_c_comments_from true (String d s).
Proof. reflexivity. Qed.

Lemma strip_c_comments_no_end s :
  has_comment_end s = false → strip_c_comments_from false s = s.
Proof.
  induction s as [|c s IH]; intros H; [done|].
  pose proof (has_comment_end_tail _ _ H) as Hs.
  destruct s as [|d s']; [done|]. rewrite strip_outside_step.
  rewrite (has_comment_end_tail _ _ Hs), andb_false_r.
  by rewrite (IH Hs).
Qed.

Lemma strip_c_comments_no_start s :
  has_comment_start s = false → strip_c_comments_from false s = s.
Proof.
  induction s as [|c s IH]; intros H; [done|].
  pose proof (has_comment_start_tail _ _ H) as Hs.
  destruct s as [|d s']; [done|]. rewrite strip_outside_step.
  simpl in H. apply orb_false_iff in H as [H _]. rewrite H.
  by rewrite (IH Hs).
Qed.

(** X1: a text that holds no slash-star, or no star-slash, comes back
    from [strip_c_comments] as it is; so a comment that is opened and never
    closed is left in place. *)
Theorem strip_c_comments_unchanged (text : string) :
  has_comment_start text = false ∨ has_comment_end text = false →
  strip_c_comments text = text.
Proof.
  intros [H|H]; [by apply strip_c_comments_no_start
                | by apply strip_c_comments_no_end].
Qed.

Lemma strip_c_comments_unchanged_example :
  strip_c_comments "a /* never closed" = "a /* never closed".
Proof.
  apply (strip_c_comments_unchanged "a /* never closed").
  right. reflexivity.
Defined.

Lemma has_comment_end_closed body rest :
  has_comment_end (body +:+ "*/" +:+ rest) = true.
Proof.
  induction body as [|c body IH].
  - done.
  - rewrite string_app_cons. simpl. rewrite IH. apply orb_true_r.
Qed.

Lemma strip_c_comments_inside body rest :
  has_comment_end body = false →
  strip_c_comments_from true (body +:+ "*/" +:+ rest)
  = strip_c_comments_from false rest.
Proof.
  induction body as [|c body IH]; intros H; [done|].
  pose proof (has_comment_end_tail _ _ H) as Hb.
  rewrite string_app_cons. simpl in H. apply orb_false_iff in H as [H _].
  destruct body as [|d body'].
  - rewrite string_app_nil_l in *.
    change ("*/" +:+ rest) with (String "*" (String "/" rest)) in *.
    rewrite strip_inside_step.
    replace (Ascii.eqb c "*" && Ascii.eqb "*" "/") with false
      by (by rewrite andb_false_r).
    by apply IH.
  - rewrite string_app_cons in *. rewrite strip_inside_step, H.
    by apply IH.
Qed.

(** X2: a comment is taken away whatever stands around it, quotes of a
    string included: when the text before the comment holds no slash-star
    and the body of the comment no star-slash, what is left is the text
    before and the rest of the text with its own comments removed. *)
Theorem strip_c_comments_comment (before body rest : string) :
  has_comment_start before = false →
  has_comment_end body = false →
  strip_c_comments (before +:+ "/*" +:+ body +:+ "*/" +:+ rest)
  = before +:+ strip_c_comments rest.
Proof.
  intros Ha Hb. unfold strip_c_comments.
  induction before as [|c a IH].
  - rewrite !string_app_nil_l.
    change ("/*" +:+ body +:+ "*/" +:+ rest)
      with (String "/" (String "*" (body +:+ "*/" +:+ rest))).
    rewrite strip_outside_step, has_comment_end_closed.
    by apply strip_c_comments_inside.
  - pose proof (has_comment_start_tail _ _ Ha) as Ha'.
    rewrite !string_app_cons. simpl in Ha.
    apply orb_false_iff in Ha as [Ha _].
    destruct a as [|d a'].
    + rewrite string_app_nil_l in *.
      change ("/*" +:+ body +:+ "*/" +:+ rest)
        with (String "/" (String "*" (body +:+ "*/" +:+ rest))) in *.
      rewrite strip_outside_step.
      replace (Ascii.eqb c "/" && Ascii.eqb "/" "*") with false
        by (by rewrite andb_false_r).
      cbn [andb]. f_equal. by apply IH.
    + rewrite string_app_cons in *. rewrite strip_outside_step, Ha.
      cbn [andb]. f_equal. by apply IH.
Qed.

Lemma strip_c_comments_comment_example :
  strip_c_comments ("a '" +:+ "/*" +:+ " x " +:+ "*/" +:+ "' b /* y */ c")
  = "a '" +:+ strip_c_comments "' b /* y */ c".
Proof.
  apply (strip_c_comments_comment "a '" " x " "' b /* y */ c");
    reflexivity.
Defined.

Lemma strip_c_comments_from_sublist n s inside :
  String.length s ≤ n →
  sublist (list_ascii_of_string (strip_c_comments_from inside s))
    (list_ascii_of_string s).
Proof.
  revert s inside. induction n as [|n IH]; intros s inside Hn.
  { destruct s; [|simpl in Hn; lia]. destruct inside; constructor. }
  destruct s as [|c [|d s]].
  - destruct inside; constructor.
  - destruct inside; simpl; [apply sublist_nil_l | done].
  - simpl in Hn. destruct inside.
    + rewrite strip_inside_step. destruct (_ && _).
      * do 2 apply sublist_cons. apply IH. lia.
      * apply sublist_cons. apply (IH (String d s)). simpl. lia.
    + rewrite strip_outside_step. destruct (_ && _ && _).
      * do 2 apply sublist_cons. apply IH. lia.
      * apply (sublist_skip c). apply (IH (String d s)). simpl. lia.
Qed.

(** X3: [strip_c_comments] only takes characters away: the characters of
    its result are characters of the text, in the order of the text. *)
Theorem strip_c_comments_sublist (text : string) :
  sublist (list_ascii_of_string (strip_c_comments text))
    (list_ascii_of_string text).
Proof. by apply (strip_c_comments_from_sublist (String.length text)). Qed.

(** ** The CSS url matcher *)

Lemma string_length_app (a b : string) :
  String.length (a +:+ b) = String.length a + String.length b.
Proof.
  induction a as [|c a IH]; [done|]. rewrite string_app_cons. simpl.
  by rewrite IH.
Qed.

Lemma drop_chars_app (a b : string) : drop_chars (String.length a) (a +:+ b) = b.
Proof.
  induction a as [|c a IH]; [by destruct b|]. by rewrite string_app_cons.
Qed.

Lemma css_close_spec ws rest :
  all_chars is_space ws = true →
  css_close (ws +:+ String ")" rest) = Some (S (String.length ws)).
Proof.
  intros H. unfold css_close.
  by destruct (take_while_app is_space ws (String ")" rest) H) as [-> ->].
Qed.

Lemma css_quoted_spec q body ws rest :
  body ≠ "" →
  all_chars (λ x, negb (Ascii.eqb x q)) body = true →
  all_chars is_space ws = true →
  css_quoted q (String q (body +:+ String q (ws +:+ String ")" rest)))
  = Some (String q (body +:+ String q ""),
          String.length body + 2 + S (String.length ws)).
Proof.
  intros Hne Hb Hws. unfold css_quoted. rewrite Ascii.eqb_refl.
  destruct (take_while_app (λ x, negb (Ascii.eqb x q)) body
              (String q (ws +:+ String ")" rest)) Hb) as [-> ->].
  { by rewrite Ascii.eqb_refl. }
  destruct body; [done|]. by rewrite css_close_spec.
Qed.

Lemma css_bare_spec tok ws rest :
  tok ≠ "" →
  all_chars (λ x, negb (Ascii.eqb x ")") && negb (is_space x)) tok = true →
  all_chars is_space ws = true →
  css_bare (tok +:+ ws +:+ String ")" rest)
  = Some (tok, String.length tok + S (String.length ws)).
Proof.
  intros Hne Ht Hws. unfold css_bare.
  destruct (take_while_app
              (λ x, negb (Ascii.eqb x ")") && negb (is_space x)) tok
              (ws +:+ String ")" rest) Ht) as [-> ->].
  { destruct ws as [|w ws]; [done|]. rewrite string_app_cons.
    simpl in Hws. apply andb_true_iff in Hws as [-> _].
    apply andb_false_r. }
  destruct tok; [done|]. by rewrite css_close_spec.
Qed.

Lemma css_quoted_other q s : 
  match s with String c _ => c ≠ q | EmptyString => True end →
  css_quoted q s = None.
Proof.
  destruct s as [|c s]; [done|]. intros H. unfold css_quoted.
  by rewrite (proj2 (Ascii.eqb_neq c q)).
Qed.

(** A match of [css_url_re] starts with the literal. *)
Lemma css_url_re_match_literal s r :
  css_url_re_match s = Some r → ∃ s1, s = "url(" +:+ s1 ∧ 1 ≤ r.2.
Proof.
  destruct s as [|u s]; [done|].
  destruct (Ascii.eqb_spec u "u") as [->|Hu];
    [|by destruct u as [[] [] [] [] [] [] [] []]].
  destruct s as [|r0 s]; [done|].
  destruct (Ascii.eqb_spec r0 "r") as [->|Hr];
    [|by destruct r0 as [[] [] [] [] [] [] [] []]].
  destruct s as [|l s]; [done|].
  destruct (Ascii.eqb_spec l "l") as [->|Hl];
    [|by destruct l as [[] [] [] [] [] [] [] []]].
  destruct s as [|p s]; [done|].
  destruct (Ascii.eqb_spec p "(") as [->|Hp];
    [|by destruct p as [[] [] [] [] [] [] [] []]].
  unfold css_url_re_match. intros H. exists s. split; [done|].
  destruct (match css_quoted "'" _ with Some _ => _ | None => _ end)
    as [[u n]|]; [|done].
  injection H as <-. simpl. lia.
Qed.

(** Brings texts built with the append to one shape. *)
Ltac string_norm :=
  repeat first [ rewrite string_app_assoc | rewrite string_app_cons
               | rewrite string_app_nil_l ].

Ltac length_norm :=
  repeat progress (rewrite ?string_length_app; cbn [String.length]).

Lemma css_url_re_match_unfold s1 :
  css_url_re_match ("url(" +:+ s1)
  = match
      (match css_quoted "'" (drop_while is_space s1) with
       | Some r => Some r
       | None =>
           match css_quoted "034" (drop_while is_space s1) with
           | Some r => Some r
           | None => css_bare (drop_while is_space s1)
           end
       end)
    with
    | Some (u, n) =>
        Some (u, 4 + String.length (take_while is_space s1) + n)
    | None => None
    end.
Proof. reflexivity. Qed.

Lemma css_url_re_finditer_from_drop k s :
  css_url_re_finditer_from k s = css_url_re_finditer (drop_chars k s).
Proof.
  revert k. induction s as [|c s IH]; intros [|k]; try done.
  simpl. apply IH.
Qed.

(** The matches of a text that starts with a match: the match, then the
    matches of what follows it. *)
Lemma css_url_re_finditer_match s u n :
  css_url_re_match s = Some (u, n) →
  css_url_re_finditer s = u :: css_url_re_finditer (drop_chars n s).
Proof.
  intros H. pose proof (css_url_re_match_literal _ _ H) as (s1 & -> & Hn).
  simpl in Hn. destruct n as [|n]; [lia|].
  change ("url(" +:+ s1) with (String "u" ("rl(" +:+ s1)) in *.
  unfold css_url_re_finditer. cbn [css_url_re_finditer_from].
  rewrite H. f_equal. cbn [pred drop_chars].
  apply css_url_re_finditer_from_drop.
Qed.

Lemma css_url_re_finditer_nomatch c s :
  css_url_re_match (String c s) = None →
  css_url_re_finditer (String c s) = css_url_re_finditer s.
Proof.
  intros H. unfold css_url_re_finditer. cbn [css_url_re_finditer_from].
  by rewrite H.
Qed.

(** No match starts in a text without opening parenthesis that stands
    before the literal. *)
Lemma css_url_re_finditer_prefix pre s1 :
  contains_char "(" pre = false →
  css_url_re_finditer (pre +:+ "url(" +:+ s1)
  = css_url_re_finditer ("url(" +:+ s1).
Proof.
  induction pre as [|c pre IH]; intros H; [done|].
  simpl in H. apply orb_false_iff in H as [Hc H].
  rewrite string_app_cons, css_url_re_finditer_nomatch; [by apply IH|].
  destruct (css_url_re_match _) as [r|] eqn:E; [exfalso|done].
  apply css_url_re_match_literal in E as (s2 & E & _).
  apply Ascii.eqb_neq in Hc.
  destruct pre as [|c1 [|c2 [|c3 pre]]]; vm_compute in E;
    try (injection E; congruence).
  injection E as -> -> -> -> _. by vm_compute in H.
Qed.

Lemma quote_not_space q :
  q = "'"%char ∨ q = "034"%char → is_space q = false.
Proof. by intros [-> | ->]. Qed.

(** X4: a url occurrence whose token stands between two single or two
    double quotes, with optional white space inside the parentheses, is
    found by [css_url_re] wherever the text before it has no opening
    parenthesis; the group is the token with its quotes, and the search
    goes on after the closing parenthesis. *)
Theorem css_url_re_finditer_quoted (pre ws body ws' rest : string)
    (q : ascii) :
  q = "'"%char ∨ q = "034"%char →
  contains_char "(" pre = false →
  all_chars is_space ws = true →
  body ≠ "" →
  all_chars (λ x, negb (Ascii.eqb x q)) body = true →
  all_chars is_space ws' = true →
  css_url_re_finditer
    (pre +:+ "url(" +:+ ws +:+
     String q (body +:+ String q (ws' +:+ String ")" rest)))
  = String q (body +:+ String q "") :: css_url_re_finditer rest.
Proof.
  intros Hq Hpre Hws Hne Hbody Hws'.
  rewrite css_url_re_finditer_prefix by done.
  set (tokn := String q (body +:+ String q (ws' +:+ String ")" rest))).
  assert (css_url_re_match ("url(" +:+ ws +:+ tokn)
          = Some (String q (body +:+ String q ""),
                  4 + String.length ws
                  + (String.length body + 2 + S (String.length ws')))) as Hm.
  { rewrite css_url_re_match_unfold.
    destruct (take_while_app is_space ws tokn Hws) as [-> ->].
    { by apply quote_not_space. }
    subst tokn. destruct Hq as [-> | ->].
    - by rewrite css_quoted_spec.
    - rewrite (css_quoted_other "'") by done. by rewrite css_quoted_spec. }
  rewrite (css_url_re_finditer_match _ _ _ Hm). f_equal. f_equal.
  subst tokn.
  replace (4 + String.length ws
           + (String.length body + 2 + S (String.length ws')))
    with (String.length
            ("url(" +:+ ws +:+
             String q (body +:+ String q (ws' +:+ String ")" "")))).
  2:{ string_norm. length_norm. lia. }
  rewrite <- (drop_chars_app
                ("url(" +:+ ws +:+
                 String q (body +:+ String q (ws' +:+ String ")" "")))
                rest) at 2.
  f_equal. by string_norm.
Qed.

Lemma css_url_re_finditer_quoted_example :
  css_url_re_finditer
    ("background: " +:+ "url(" +:+ " " +:+
     String "'" ("a b.png" +:+ String "'" ("" +:+ String ")" "; color: red")))
  = String "'" ("a b.png" +:+ String "'" "")
    :: css_url_re_finditer "; color: red".
Proof.
  apply (css_url_re_finditer_quoted "background: " " " "a b.png" ""
           "; color: red" "'"); try reflexivity.
  - by left.
  - discriminate.
Defined.

(** X5: a url occurrence whose token is bare (not empty, without white
    space, closing parenthesis or quote), with optional white space inside
    the parentheses, is found by [css_url_re] wherever the text before it
    has no opening parenthesis; the group is the token, and the search goes
    on after the closing parenthesis. *)
Theorem css_url_re_finditer_bare (pre ws tok ws' rest : string) :
  contains_char "(" pre = false →
  all_chars is_space ws = true →
  tok ≠ "" →
  all_chars (λ x, negb (Ascii.eqb x ")") && negb (is_space x)) tok = true →
  contains_char "'" tok = false →
  contains_char "034" tok = false →
  all_chars is_space ws' = true →
  css_url_re_finditer
    (pre +:+ "url(" +:+ ws +:+ tok +:+ ws' +:+ String ")" rest)
  = tok :: css_url_re_finditer rest.
Proof.
  intros Hpre Hws Hne Htok Hq1 Hq2 Hws'.
  rewrite css_url_re_finditer_prefix by done.
  destruct tok as [|t0 tok]; [done|]. clear Hne.
  set (tokn := String t0 tok) in *.
  assert (css_url_re_match ("url(" +:+ ws +:+ tokn +:+ ws' +:+ String ")" rest)
          = Some (tokn, 4 + String.length ws
                        + (String.length tokn + S (String.length ws'))))
    as Hm.
  { rewrite css_url_re_match_unfold.
    destruct (take_while_app is_space ws
                (tokn +:+ ws' +:+ String ")" rest) Hws) as [-> ->].
    { subst tokn. rewrite string_app_cons. simpl in Htok.
      apply andb_true_iff in Htok as [Ht _].
      apply andb_true_iff in Ht as [_ Ht]. by apply negb_true_iff in Ht. }
    rewrite css_quoted_other, css_quoted_other.
    - by rewrite css_bare_spec.
    - subst tokn. rewrite string_app_cons. simpl in Hq2.
      apply orb_false_iff in Hq2 as [Hq2 _]. by apply Ascii.eqb_neq.
    - subst tokn. rewrite string_app_cons. simpl in Hq1.
      apply orb_false_iff in Hq1 as [Hq1 _]. by apply Ascii.eqb_neq. }
  rewrite (css_url_re_finditer_match _ _ _ Hm). f_equal. f_equal.
  replace (4 + String.length ws
           + (String.length tokn + S (String.length ws')))
    with (String.length ("url(" +:+ ws +:+ tokn +:+ ws' +:+ String ")" "")).
  2:{ string_norm. length_norm. lia. }
  rewrite <- (drop_chars_app
                ("url(" +:+ ws +:+ tokn +:+ ws' +:+ String ")" "") rest)
    at 2.
  f_equal. by string_norm.
Qed.

Lemma css_url_re_finditer_bare_example :
  css_url_re_finditer
    ("background-image:" +:+ "url(" +:+ "" +:+ "b.png" +:+ " " +:+
     String ")" " !important")
  = "b.png" :: css_url_re_finditer " !important".
Proof.
  apply (css_url_re_finditer_bare "background-image:" "" "b.png" " "
           " !important"); try reflexivity.
  discriminate.
Defined.

(** ** Robots directives *)

(** X6: on a meta tag named [robots] whose content is a text (or absent,
    which counts as empty), [follow] is false after the call exactly when
    one of the pieces of the content between commas is [nofollow] in any
    letter case, and [index] exactly when one is [noindex]; whatever the
    flags were before; and the call raises StopParse. *)
Theorem robots_directives (self : MetaRobotsFinder.t) (attrs : attrs_t)
    (content text : string) (l c : Z) :
  get attrs "name" = Some "robots" →
  get_default attrs "content" "" = Some content →
  let r := MetaRobotsFinder.start_element self "meta" attrs text l c in
  r.2 = Raise StopParse
  ∧ (MetaRobotsFinder.follow r.1 = false ↔
       ∃ tok, tok ∈ split_on "," content ∧ lower tok = "nofollow")
  ∧ (MetaRobotsFinder.index r.1 = false ↔
       ∃ tok, tok ∈ split_on "," content ∧ lower tok = "noindex").
Proof.
  intros Hn Hc. cbv zeta.
  rewrite (robots_meta_flags self attrs content text l c Hn Hc).
  cbn [fst snd MetaRobotsFinder.follow MetaRobotsFinder.index].
  split; [done|].
  split; rewrite negb_false_iff, mem_spec, list_elem_of_fmap;
    split; intros (tok & ? & ?); by exists tok.
Qed.

Lemma robots_directives_example :
  (MetaRobotsFinder.start_element MetaRobotsFinder.init "meta"
     (attrs_of [("name", Some "robots"); ("content", Some "NoFollow,x")])
     "" 1 1).2 = Raise StopParse
  ∧ (MetaRobotsFinder.follow
       (MetaRobotsFinder.start_element MetaRobotsFinder.init "meta"
          (attrs_of [("name", Some "robots");
                     ("content", Some "NoFollow,x")]) "" 1 1).1 = false ↔
       ∃ tok, tok ∈ split_on "," "NoFollow,x" ∧ lower tok = "nofollow")
  ∧ (MetaRobotsFinder.index
       (MetaRobotsFinder.start_element MetaRobotsFinder.init "meta"
          (attrs_of [("name", Some "robots");
                     ("content", Some "NoFollow,x")]) "" 1 1).1 = false ↔
       ∃ tok, tok ∈ split_on "," "NoFollow,x" ∧ lower tok = "noindex").
Proof.
  apply (robots_directives MetaRobotsFinder.init
           (attrs_of [("name", Some "robots");
                      ("content", Some "NoFollow,x")])
           "NoFollow,x" "" 1 1); reflexivity.
Defined.

Lemma robots_start_element_neutral self ev :
  robots_decisive ev = false →
  MetaRobotsFinder.start_element self (ev_tag ev) (ev_attrs ev) (ev_text ev)
    (ev_line ev) (ev_column ev) = (self, Ok tt).
Proof.
  unfold robots_decisive, MetaRobotsFinder.start_element.
  intros [Hb Hm]%orb_false_iff. by rewrite Hb, Hm.
Qed.

Lemma robots_start_element_decisive self ev :
  robots_decisive ev = true →
  ∃ e, (MetaRobotsFinder.start_element self (ev_tag ev) (ev_attrs ev)
          (ev_text ev) (ev_line ev) (ev_column ev)).2 = Raise e.
Proof.
  unfold robots_decisive, MetaRobotsFinder.start_element.
  destruct (_ && _).
  - intros _. destruct (get_lower _ _); eauto.
  - rewrite orb_false_r. intros ->. eauto.
Qed.

(** X7: a scan for robots directives is decided by the first tag event
    that is a body tag or a meta tag named [robots]: the tag events before
    it change nothing, the scan ends with what that tag event does, which
    is an exception, and the tag events after it have no part in it. *)
Theorem feed_robots_first_decisive (self : MetaRobotsFinder.t)
    (before : list tag_event) (ev : tag_event) (after : list tag_event) :
  (∀ e, e ∈ before → robots_decisive e = false) →
  robots_decisive ev = true →
  feed_robots self (before ++ ev :: after)
    = MetaRobotsFinder.start_element self (ev_tag ev) (ev_attrs ev)
        (ev_text ev) (ev_line ev) (ev_column ev)
  ∧ ∃ e, (feed_robots self (before ++ ev :: after)).2 = Raise e.
Proof.
  intros Hpre Hev.
  assert (feed_robots self (before ++ ev :: after)
          = MetaRobotsFinder.start_element self (ev_tag ev) (ev_attrs ev)
              (ev_text ev) (ev_line ev) (ev_column ev)) as Heq.
  { induction before as [|e0 before IH].
    - destruct (robots_start_element_decisive self ev Hev) as [e He].
      simpl.
      destruct (MetaRobotsFinder.start_element _ _ _ _ _ _) as [s' [[]|e']];
        [done | done].
    - simpl. rewrite robots_start_element_neutral by (apply Hpre; left).
      apply IH. intros e He. apply Hpre. by right. }
  split; [done|]. rewrite Heq. by apply robots_start_element_decisive.
Qed.

Lemma feed_robots_first_decisive_example :
  feed_robots MetaRobotsFinder.init
    ([TagEvent "html" (attrs_of []) "" 1 1;
      TagEvent "meta" (attrs_of [("name", Some "author")]) "" 2 1]
     ++ TagEvent "body" (attrs_of []) "" 3 1
     :: [TagEvent "meta"
           (attrs_of [("name", Some "robots");
                      ("content", Some "noindex")]) "" 4 1])
    = MetaRobotsFinder.start_element MetaRobotsFinder.init "body"
        (attrs_of []) "" 3 1
  ∧ ∃ e, (feed_robots MetaRobotsFinder.init
            ([TagEvent "html" (attrs_of []) "" 1 1;
              TagEvent "meta" (attrs_of [("name", Some "author")]) "" 2 1]
             ++ TagEvent "body" (attrs_of []) "" 3 1
             :: [TagEvent "meta"
                   (attrs_of [("name", Some "robots");
                              ("content", Some "noindex")]) "" 4 1])).2
         = Raise e.
Proof.
  apply (feed_robots_first_decisive MetaRobotsFinder.init
           [TagEvent "html" (attrs_of []) "" 1 1;
            TagEvent "meta" (attrs_of [("name", Some "author")]) "" 2 1]
           (TagEvent "body" (attrs_of []) "" 3 1)
           [TagEvent "meta"
              (attrs_of [("name", Some "robots");
                         ("content", Some "noindex")]) "" 4 1]).
  - intros e [->|[->|[]%elem_of_nil]%elem_of_cons]%elem_of_cons;
      reflexivity.
  - reflexivity.
Defined.

(** ** The classification predicates and their errors *)

(** X8: [is_form_get] answers true exactly for the action attribute of a
    tag whose method is absent or is a text other than [post] in any
    letter case; it raises exactly when asked about the action attribute of
    a tag whose method is present without value, and then AttributeError. *)
Theorem is_form_get_spec (attr : string) (attrs : attrs_t) :
  (is_form_get attr attrs = Ok true ↔
     attr = "action"
     ∧ (attrs !! "method" = None
        ∨ ∃ m, attrs !! "method" = Some (Some m) ∧ lower m ≠ "post"))
  ∧ (∀ e, is_form_get attr attrs = Raise e ↔
       e = AttributeError ∧ attr = "action"
       ∧ attrs !! "method" = Some None).
Proof.
  unfold is_form_get, get_lower, get_default.
  destruct (decide (attr = "action")) as [->|Ha].
  - rewrite bool_decide_eq_true_2 by done.
    destruct (attrs !! "method") as [[m|]|]; simpl.
    + destruct (decide (lower m = "post")) as [Hm|Hm].
      * rewrite (bool_decide_eq_true_2 _ Hm). simpl. split.
        -- split; [done|]. intros (_ & [?|(m' & [= <-] & ?)]); done.
        -- intros e. split; [done|]. by intros (_ & _ & ?).
      * rewrite (bool_decide_eq_false_2 _ Hm). simpl. split.
        -- split; [|done]. intros _. split; [done|]. right. by exists m.
        -- intros e. split; [done|]. by intros (_ & _ & ?).
    + split.
      * split; [done|]. intros (_ & [?|(m' & ? & _)]); done.
      * intros e. split; [by intros [= <-]|]. by intros (-> & _).
    + split.
      * split; [|done]. intros _. split; [done|]. by left.
      * intros e. split; [done|]. by intros (_ & _ & ?).
  - rewrite bool_decide_eq_false_2 by done. split.
    + split; [done|]. by intros [? _].
    + intros e. split; [done|]. by intros (_ & ? & _).
Qed.

Lemma get_lower_raise attrs key e :
  get_lower attrs key = Raise e ↔ e = AttributeError ∧ attrs !! key = Some None.
Proof.
  unfold get_lower, get_default.
  destruct (attrs !! key) as [[v|]|]; simpl; split; try done.
  - by intros [_ ?].
  - by intros [= <-].
  - by intros [-> _].
  - by intros [_ ?].
Qed.

Lemma get_lower_ok attrs key :
  attrs !! key ≠ Some None → ∃ v, get_lower attrs key = Ok v.
Proof.
  unfold get_lower, get_default.
  destruct (attrs !! key) as [[v|]|]; simpl; eauto. done.
Qed.

(** X9: [is_meta_url] raises exactly when a sibling attribute it reads is
    present without value: http-equiv or scheme when asked about content,
    rel when asked about href; and then AttributeError. For every other
    attribute, and whenever those siblings are absent or texts, it
    answers. *)
Theorem is_meta_url_raises (attr : string) (attrs : attrs_t) (e : exn) :
  is_meta_url attr attrs = Raise e ↔
  e = AttributeError
  ∧ ((attr = "content"
      ∧ (attrs !! "http-equiv" = Some None ∨ attrs !! "scheme" = Some None))
     ∨ (attr = "href" ∧ attrs !! "rel" = Some None)).
Proof.
  unfold is_meta_url.
  destruct (decide (attr = "content")) as [->|Hc].
  - rewrite bool_decide_eq_true_2 by done.
    rewrite (bool_decide_eq_false_2 ("content" = "href")) by done.
    destruct (get_lower attrs "http-equiv") as [eq|e1] eqn:E1; simpl.
    + destruct (get_lower attrs "scheme") as [sc|e2] eqn:E2; simpl.
      * split; [done|]. intros (_ & [(_ & [H|H])|[? _]]); [| |done].
        -- assert (get_lower attrs "http-equiv" = Raise AttributeError)
             by (by apply get_lower_raise). congruence.
        -- assert (get_lower attrs "scheme" = Raise AttributeError)
             by (by apply get_lower_raise). congruence.
      * apply get_lower_raise in E2 as [-> E2]. split.
        -- intros [= <-]. split; [done|]. left. auto.
        -- by intros [-> _].
    + apply get_lower_raise in E1 as [-> E1]. split.
      * intros [= <-]. split; [done|]. left. auto.
      * by intros [-> _].
  - rewrite (bool_decide_eq_false_2 (attr = "content")) by done. simpl.
    destruct (decide (attr = "href")) as [->|Hh].
    + rewrite bool_decide_eq_true_2 by done.
      destruct (get_lower attrs "rel") as [r|e1] eqn:E1; simpl.
      * split; [done|]. intros (_ & [[? _]|[_ H]]); [done|].
        assert (get_lower attrs "rel" = Raise AttributeError)
          by (by apply get_lower_raise). congruence.
      * apply get_lower_raise in E1 as [-> E1]. split.
        -- intros [= <-]. split; [done|]. right. auto.
        -- by intros [-> _].
    + rewrite bool_decide_eq_false_2 by done. split; [done|].
      intros (_ & [[? _]|[? _]]); done.
Qed.

(** ** Tags without link, anchors ignored *)

Lemma sorted_empty iter : set_order iter → LinkFinder.sorted iter ∅ = [].
Proof.
  intros H. apply Permutation_nil_r.
  by rewrite (sorted_Permutation iter ∅ H), elements_empty.
Qed.

(** X10: a tag event none of whose attributes is listed in the rule table,
    neither under the tag nor under [None], makes no call of the sink and
    ends without exception; so it is for every tag when the attributes are
    none. *)
Theorem no_link_attribute_no_call (unquote : string → string)
    (iter : gset string → list string) (table : tag_table)
    (ic : list string) (tag : string) (attrs : attrs_t) (text : string)
    (l c : Z) :
  set_order iter →
  (∀ a, is_Some (attrs !! a) →
        (a ∉ default [] (table !! Some tag))
        ∧ (a ∉ default [] (table !! None))) →
  (LinkFinder.start_element unquote iter (LinkFinder.init table ic) tag
     attrs text l c).2 = ret tt.
Proof.
  intros Hiter Hno. unfold LinkFinder.start_element.
  set (self' := if bool_decide (tag = "base") && _ then _ else _).
  assert (default (LinkFinder.universal_attrs self')
            (LinkFinder.tags self' !! Some tag) ∩ dom attrs = ∅) as Hempty.
  { replace (default (LinkFinder.universal_attrs self')
               (LinkFinder.tags self' !! Some tag))
      with (default (LinkFinder.universal_attrs (LinkFinder.init table ic))
              (LinkFinder.tags (LinkFinder.init table ic) !! Some tag))
      by (subst self'; by destruct (_ && _)).
    rewrite init_tagattrs. apply elem_of_equiv_empty_L. intros a.
    rewrite elem_of_intersection, elem_of_dom, elem_of_union,
      !elem_of_list_to_set.
    intros [Ha Hdom]. destruct (Hno a Hdom) as [H1 H2]. tauto. }
  destruct (_ && _ && _ && _); [done|]. cbn [snd].
  by rewrite Hempty, sorted_empty.
Qed.

Lemma no_link_attribute_no_call_example :
  (LinkFinder.start_element strip_quotes elements
     (LinkFinder.init WmlTags []) "card"
     (attrs_of [("style", Some "background: url(a.png)");
                ("href", Some "/x")]) "" 1 1).2 = ret tt.
Proof.
  apply (no_link_attribute_no_call strip_quotes elements WmlTags [] "card"
           (attrs_of [("style", Some "background: url(a.png)");
                      ("href", Some "/x")]) "" 1 1 set_order_elements).
  intros a _. split; vm_compute; apply not_elem_of_nil.
Defined.

(** X11: an anchor one of whose classes (the pieces of its class attribute
    between white space) is among the classes to ignore is passed over: no
    call of the sink, no exception, the finder as it was. An anchor none of
    whose classes is among them, or without class, is treated like any
    other tag: the loop over its link attributes runs. *)
Theorem anchor_ignored_iff_class (unquote : string → string)
    (iter : gset string → list string) (self : LinkFinder.t)
    (attrs : attrs_t) (text : string) (l c : Z) :
  ((∃ cls tok, attrs !! "class" = Some (Some cls)
               ∧ tok ∈ split_ws cls ∧ tok ∈ LinkFinder.ignore_classes self) →
   LinkFinder.start_element unquote iter self "a" attrs text l c
   = (self, ret tt))
  ∧ (¬ (∃ cls tok, attrs !! "class" = Some (Some cls)
                   ∧ tok ∈ split_ws cls
                   ∧ tok ∈ LinkFinder.ignore_classes self) →
     LinkFinder.start_element unquote iter self "a" attrs text l c
     = (self,
        for_each
          (LinkFinder.sorted iter
             (default (LinkFinder.universal_attrs self)
                (LinkFinder.tags self !! Some "a") ∩ dom attrs))
          (LinkFinder.start_element_attr unquote self "a" attrs text l c))).
Proof.
  unfold LinkFinder.start_element.
  rewrite (bool_decide_eq_false_2 ("a" = "base")) by done.
  rewrite (bool_decide_eq_true_2 ("a" = "a")) by done.
  cbn [andb]. split.
  - intros (cls & tok & Hcls & Htok & Hic).
    unfold get. rewrite Hcls. cbn [default from_option id text_of].
    assert (truthy (Some cls) = true) as ->.
    { destruct cls; [by apply elem_of_nil in Htok | done]. }
    rewrite (bool_decide_eq_false_2 (_ = [])).
    2:{ intros E. rewrite E in Hic. by apply elem_of_nil in Hic. }
    cbn [andb negb].
    by rewrite (proj2 (existsb_mem _ _) (ex_intro _ tok (conj Htok Hic))).
  - intros Hno.
    destruct (truthy (get attrs "class")
              && negb (bool_decide (LinkFinder.ignore_classes self = []))
              && existsb _ _) eqn:E; [exfalso|done].
    apply andb_true_iff in E as [E Hex].
    apply andb_true_iff in E as [Ht _].
    apply existsb_mem in Hex as (tok & Htok & Hic).
    unfold get in *. destruct (attrs !! "class") as [[cls|]|] eqn:Hc;
      try done.
    apply Hno. by exists cls, tok.
Qed.

(** ** The base and the position of a candidate *)

Lemma start_element_attr_call_base unquote self tag attrs text l c attr call :
  call ∈ (LinkFinder.start_element_attr unquote self tag attrs text l c
            attr).1 →
  line call = l ∧ column call = c
  ∧ Some (base call)
    = if bool_decide (tag = "applet")
         && truthy (get_default attrs "codebase" "")
      then get_default attrs "codebase" ""
      else LinkFinder.base_ref self.
Proof.
  unfold LinkFinder.start_element_attr.
  intros [H|([] & _ & H)]%elem_of_bind.
  { destruct (bool_decide (tag = "meta")); [|by apply elem_of_nil in H].
    destruct (is_meta_url attr attrs); by apply elem_of_nil in H. }
  { by apply elem_of_nil in H. }
  apply elem_of_bind in H as [H|([] & _ & H)].
  { destruct (bool_decide (tag = "form")); [|by apply elem_of_nil in H].
    destruct (is_form_get attr attrs); by apply elem_of_nil in H. }
  { by apply elem_of_nil in H. }
  apply elem_of_bind in H as [H|(value & _ & H)].
  { destruct (_ && _); [|by apply elem_of_nil in H].
    destruct (get attrs attr); by apply elem_of_nil in H. }
  apply parse_tag_call in H as (_ & Hb & -> & ->).
  split; [done|]. split; [done|]. rewrite <- Hb.
  destruct (bool_decide (tag = "applet")); [|done]. cbn [andb].
  by destruct (truthy (get_default attrs "codebase" "")).
Qed.

(** X12: every candidate sent for a tag event carries the line and the
    column of the tag event; its base is the codebase attribute of the tag
    when the tag is an applet with a codebase that is a non-empty text,
    and the document base of the finder in every other case. *)
Theorem candidate_base_position (unquote : string → string)
    (iter : gset string → list string) (self : LinkFinder.t)
    (tag : string) (attrs : attrs_t) (text : string) (l c : Z)
    (call : sink_call) :
  let r := LinkFinder.start_element unquote iter self tag attrs text l c in
  call ∈ r.2.1 →
  line call = l ∧ column call = c
  ∧ Some (base call)
    = if bool_decide (tag = "applet")
         && truthy (get_default attrs "codebase" "")
      then get_default attrs "codebase" ""
      else LinkFinder.base_ref r.1.
Proof.
  cbv zeta. unfold LinkFinder.start_element.
  set (self' := if bool_decide (tag = "base") && _ then _ else self).
  destruct (_ && _ && _ && _); cbn [fst snd].
  { by intros ?%elem_of_nil. }
  intros (attr & _ & H)%elem_of_for_each.
  by apply start_element_attr_call_base in H.
Qed.

Lemma candidate_base_position_example :
  line (SinkCall (Some "a.jar") 7 3 "" "/code/") = 7%Z
  ∧ column (SinkCall (Some "a.jar") 7 3 "" "/code/") = 3%Z
  ∧ Some (base (SinkCall (Some "a.jar") 7 3 "" "/code/"))
    = if bool_decide ("applet" = "applet")
         && truthy (get_default
                      (attrs_of [("codebase", Some "/code/");
                                 ("archive", Some "a.jar,b.jar")])
                      "codebase" "")
      then get_default
             (attrs_of [("codebase", Some "/code/");
                        ("archive", Some "a.jar,b.jar")]) "codebase" ""
      else LinkFinder.base_ref
             (LinkFinder.start_element strip_quotes elements
                (LinkFinder.init LinkTags []) "applet"
                (attrs_of [("codebase", Some "/code/");
                           ("archive", Some "a.jar,b.jar")]) "" 7 3).1.
Proof.
  apply (candidate_base_position strip_quotes elements
           (LinkFinder.init LinkTags []) "applet"
           (attrs_of [("codebase", Some "/code/");
                      ("archive", Some "a.jar,b.jar")]) "" 7 3
           (SinkCall (Some "a.jar") 7 3 "" "/code/")).
  vm_compute. left.
Defined.

(** ** Meta tags *)







(** ** Lists of URLs *)

Lemma split_on_cons_inv sep s : ∃ w ws, split_on sep s = w :: ws.
Proof.
  destruct s as [|c s]; simpl; [eauto|].
  destruct (Ascii.eqb c sep); [eauto|]. destruct (split_on sep s); eauto.
Qed.

Lemma join_on_cons sep a b l :
  join_on sep (a :: b :: l) = a +:+ String sep (join_on sep (b :: l)).
Proof. reflexivity. Qed.

(** Joining the pieces with the separator gives the text back. *)
Lemma join_on_split_on sep s : join_on sep (split_on sep s) = s.
Proof.
  induction s as [|c s IH]; [done|]. simpl.
  destruct (split_on_cons_inv sep s) as (w & ws & E). rewrite E in *.
  destruct (Ascii.eqb_spec c sep) as [->|_].
  - by rewrite join_on_cons, IH.
  - destruct ws as [|w' ws]; [simpl in *; by rewrite IH|].
    rewrite join_on_cons in *. by rewrite string_app_cons, IH.
Qed.

(** No piece holds the separator. *)
Lemma split_on_no_sep sep s :
  Forall (λ w, contains_char sep w = false) (split_on sep s).
Proof.
  induction s as [|c s IH]; simpl; [by repeat constructor|].
  destruct (Ascii.eqb_spec c sep) as [->|Hc]; [by constructor|].
  apply Ascii.eqb_neq in Hc.
  destruct (split_on sep s) as [|w ws].
  - constructor; [|done]. simpl. by rewrite Hc.
  - apply Forall_cons in IH as [Hw Hws]. constructor; [|done].
    simpl. by rewrite Hw, Hc.
Qed.

(** X14: the value of an archive attribute, when a text, is sent to the
    sink piece by piece, one call for each piece between commas, in order,
    empty pieces included, without exception; joined with commas the
    pieces give the value back, and no piece holds a comma. *)
Theorem archive_candidates (unquote : string → string)
    (tag value nm bs : string) (l c : Z) :
  tag ≠ "meta" →
  LinkFinder.parse_tag unquote tag "archive" (Some value) (Some nm)
    (Some bs) l c
  = ((λ u, SinkCall (Some u) l c nm bs) <$> split_on "," value, Ok tt)
  ∧ join_on "," (split_on "," value) = value
  ∧ Forall (λ u, contains_char "," u = false) (split_on "," value).
Proof.
  intros Htag. split; [|split].
  - unfold LinkFinder.parse_tag.
    rewrite (bool_decide_eq_false_2 (tag = "meta")) by done. name_cases.
    cbn [andb value_split]. unfold lift. 
    change (bind ([], Ok (split_on "," value)) ?k)
      with (bind (ret (split_on "," value)) k).
    rewrite bind_ret_l.
    apply (for_each_found_url _ (λ u, Some u)).
  - apply join_on_split_on.
  - apply split_on_no_sep.
Qed.

Lemma archive_candidates_example :
  LinkFinder.parse_tag strip_quotes "applet" "archive" (Some "a.jar,,b.jar")
    (Some "") (Some "/code/") 1 1
  = ((λ u, SinkCall (Some u) 1 1 "" "/code/") <$> split_on "," "a.jar,,b.jar",
     Ok tt)
  ∧ join_on "," (split_on "," "a.jar,,b.jar") = "a.jar,,b.jar"
  ∧ Forall (λ u, contains_char "," u = false) (split_on "," "a.jar,,b.jar").
Proof.
  apply (archive_candidates strip_quotes "applet" "a.jar,,b.jar" ""
           "/code/" 1 1).
  discriminate.
Defined.

Lemma split_ws_step c s :
  split_ws (String c s)
  = if is_space c then split_ws s
    else match s with
         | EmptyString => [String c EmptyString]
         | String c' _ =>
             if is_space c' then String c EmptyString :: split_ws s
             else match split_ws s with
                  | w :: ws => String c w :: ws
                  | [] => [String c EmptyString]
                  end
         end.
Proof. reflexivity. Qed.

(** The first token of a text is the run of characters that are not white
    space after the white space the text starts with. *)
Lemma split_ws_head s :
  head (split_ws s)
  = match take_while (λ x, negb (is_space x)) (drop_while is_space s) with
    | EmptyString => None
    | u => Some u
    end.
Proof.
  induction s as [|c s IH]; [done|].
  rewrite split_ws_step. cbn [drop_while].
  destruct (is_space c) eqn:Ec; [done|].
  cbn [take_while]. rewrite Ec. cbn [negb].
  destruct s as [|c' s']; [done|].
  destruct (is_space c') eqn:Ec'.
  - cbn [take_while]. by rewrite Ec'.
  - cbn [drop_while] in IH. rewrite Ec' in IH.
    cbn [take_while] in *. rewrite Ec' in *. cbn [negb] in *.
    destruct (split_ws (String c' s')) as [|w ws]; [done|].
    cbn [head] in *. by injection IH as ->.
Qed.

(** X15: when every piece of a srcset value between commas has a character
    that is not white space, one candidate is sent for each piece, in
    order, without exception: the run of characters that are not white
    space after the white space the piece starts with; what follows in the
    piece, a width or a density, is left out. *)
Theorem srcset_candidates (unquote : string → string)
    (tag value nm bs : string) (l c : Z) :
  tag ≠ "meta" →
  (∀ seg, seg ∈ split_on "," value → all_chars is_space seg = false) →
  LinkFinder.parse_tag unquote tag "srcset" (Some value) (Some nm)
    (Some bs) l c
  = ((λ seg,
       SinkCall
         (Some (take_while (λ x, negb (is_space x))
                  (drop_while is_space seg))) l c nm bs)
       <$> split_on "," value,
     Ok tt).
Proof.
  intros Htag Hsegs. unfold LinkFinder.parse_tag.
  rewrite (bool_decide_eq_false_2 (tag = "meta")) by done. name_cases.
  cbn [andb value_split]. unfold lift.
  change (bind ([], Ok (split_on "," value)) ?k)
    with (bind (ret (split_on "," value)) k).
  rewrite bind_ret_l.
  induction (split_on "," value) as [|seg segs IH]; [done|].
  cbn [for_each fmap list_fmap].
  pose proof (split_ws_head seg) as Hh.
  destruct (split_ws seg) as [|u us] eqn:Eu.
  { apply split_ws_nil in Eu. rewrite Hsegs in Eu; [done|left]. }
  simpl in Hh.
  destruct (take_while _ (drop_while is_space seg)) as [|x t]; [done|].
  injection Hh as ->.
  rewrite IH; [done|]. intros s Hs. apply Hsegs. by right.
Qed.

Lemma srcset_candidates_example :
  LinkFinder.parse_tag strip_quotes "img" "srcset"
    (Some "a.jpg 1x, b.jpg 2x") (Some "") (Some "") 1 1
  = ((λ seg,
       SinkCall
         (Some (take_while (λ x, negb (is_space x))
                  (drop_while is_space seg))) 1 1 "" "")
       <$> split_on "," "a.jpg 1x, b.jpg 2x",
     Ok tt).
Proof.
  apply (srcset_candidates strip_quotes "img" "a.jpg 1x, b.jpg 2x" "" ""
           1 1).
  - discriminate.
  - intros seg [->|[->|[]%elem_of_nil]%elem_of_cons]%elem_of_cons;
      reflexivity.
Defined.

(** ** Tags whose attributes all have a value *)

Lemma get_default_valued attrs key dflt :
  attrs_valued attrs → is_Some (get_default attrs key dflt).
Proof.
  intros H. unfold get_default. specialize (H key).
  destruct (attrs !! key) as [[v|]|]; simpl; eauto. done.
Qed.

Lemma is_meta_url_valued attr attrs :
  attrs_valued attrs → ∃ b, is_meta_url attr attrs = Ok b.
Proof.
  intros H. unfold is_meta_url.
  destruct (get_lower_ok attrs "http-equiv" (H _)) as [e ->].
  destruct (get_lower_ok attrs "scheme" (H _)) as [s ->].
  destruct (get_lower_ok attrs "rel" (H _)) as [r ->].
  destruct (bool_decide (attr = "content")),
    (bool_decide (attr = "href")); simpl; eauto.
Qed.

Lemma is_form_get_valued attr attrs :
  attrs_valued attrs → ∃ b, is_form_get attr attrs = Ok b.
Proof.
  intros H. unfold is_form_get.
  destruct (get_lower_ok attrs "method" (H _)) as [m ->].
  destruct (bool_decide (attr = "action")); simpl; eauto.
Qed.

Lemma bind_lift_ok {A B} (a : A) (k : A → emit B) :
  bind (lift (Ok a)) k = k a.
Proof. apply bind_ret_l. Qed.

Lemma for_each_outcome {A} (l : list A) (body : A → emit unit)
    (Q : result unit → Prop) :
  Q (Ok tt) → (∀ x, x ∈ l → Q (body x).2) → Q (for_each l body).2.
Proof.
  intros Hok. induction l as [|x l IH]; intros H; [done|]. simpl.
  pose proof (H x (list_elem_of_here _ _)) as Hx.
  destruct (body x) as [cs [[]|e]]; simpl in *; [|done].
  assert (Q (for_each l body).2) as Hl.
  { apply IH. intros y Hy. apply H. by right. }
  by destruct (for_each l body) as [cs' r'].
Qed.

Lemma parse_tag_outcome unquote tag attr v nm bs l c :
  let r := (LinkFinder.parse_tag unquote tag attr (Some v) (Some nm)
              (Some bs) l c).2 in
  r = Ok tt ∨ (r = Raise IndexError ∧ attr = "srcset").
Proof.
  cbv zeta. unfold LinkFinder.parse_tag.
  destruct (_ && _).
  { destruct (refresh_re_match _); [by left|]. destruct (negb _); by left. }
  destruct (_ && _).
  { rewrite (for_each_found_url _ (λ mo, Some (unquote mo))). by left. }
  destruct (bool_decide (attr = "archive")).
  { cbn [value_split]. unfold lift.
    change (bind ([], Ok (split_on "," v)) ?k)
      with (bind (ret (split_on "," v)) k).
    rewrite bind_ret_l, (for_each_found_url _ (λ u, Some u)). by left. }
  destruct (bool_decide_reflect (attr = "srcset")) as [->|_]; [|by left].
  cbn [value_split]. unfold lift.
  change (bind ([], Ok (split_on "," v)) ?k)
    with (bind (ret (split_on "," v)) k).
  rewrite bind_ret_l.
  apply (for_each_outcome _ _
           (λ r, r = Ok tt ∨ (r = Raise IndexError ∧ "srcset" = "srcset")));
    [by left|].
  intros seg _. destruct (split_ws seg); [by right | by left].
Qed.

Lemma start_element_attr_outcome unquote self tag attrs text l c attr :
  attrs_valued attrs →
  is_Some (LinkFinder.base_ref self) →
  is_Some (attrs !! attr) →
  let r := (LinkFinder.start_element_attr unquote self tag attrs text l c
              attr).2 in
  r = Ok tt ∨ (r = Raise IndexError ∧ attr = "srcset").
Proof.
  intros Hval [b Hb] [w Hw]. cbv zeta.
  unfold LinkFinder.start_element_attr.
  destruct (is_meta_url_valued attr attrs Hval) as [bm ->].
  destruct (is_form_get_valued attr attrs Hval) as [bf ->].
  assert (∃ v, get attrs attr = Some v) as [v ->].
  { unfold get. rewrite Hw. specialize (Hval attr). rewrite Hw in Hval.
    destruct w; [eauto|done]. }
  assert (∃ nm, LinkFinder.get_link_name tag attrs attr text = Some nm)
    as [nm ->].
  { unfold LinkFinder.get_link_name.
    destruct (get_default_valued attrs "title" "" Hval) as [t ->].
    destruct (get_default_valued attrs "alt" "" Hval) as [a ->].
    destruct (_ && _); [destruct (negb _); eauto|].
    destruct (bool_decide (tag = "img")); [|eauto].
    destruct (negb _); eauto. }
  assert (∃ bs,
    (if negb (truthy (if bool_decide (tag = "applet")
                      then get_default attrs "codebase" "" else Some ""))
     then LinkFinder.base_ref self
     else if bool_decide (tag = "applet")
          then get_default attrs "codebase" "" else Some "") = Some bs)
    as [bs ->].
  { rewrite Hb.
    destruct (get_default_valued attrs "codebase" "" Hval) as [cb ->].
    destruct (bool_decide (tag = "applet")); destruct (negb _); eauto. }
  destruct (bool_decide (tag = "meta")); cbn [rbind];
    rewrite ?bind_lift_ok, ?bind_ret_l;
    [destruct bm; cbn [negb]; [|by left] |];
    (destruct (bool_decide (tag = "form")); cbn [rbind];
     rewrite ?bind_lift_ok, ?bind_ret_l;
     [destruct bf; cbn [negb]; [|by left] |]);
    (destruct (_ && _); rewrite bind_ret_l; apply parse_tag_outcome).
Qed.

Lemma attrs_of_valued items :
  Forall (λ kv : string * option string, is_Some kv.2) items →
  attrs_valued (attrs_of items).
Proof.
  intros H key Hk. apply elem_of_list_to_map_2 in Hk.
  rewrite Forall_forall in H. by destruct (H _ Hk).
Qed.

(** X16: on a tag event all of whose attributes have a value, delivered to
    a finder whose document base is a text, [start_element] raises no
    AssertionError, TypeError or AttributeError: it ends without exception,
    or with IndexError, and then the tag has a srcset attribute; and the
    document base is a text after the call as well. *)
Theorem start_element_valued_safe (unquote : string → string)
    (iter : gset string → list string) (self : LinkFinder.t)
    (tag : string) (attrs : attrs_t) (text : string) (l c : Z) :
  set_order iter →
  attrs_valued attrs →
  is_Some (LinkFinder.base_ref self) →
  let r := LinkFinder.start_element unquote iter self tag attrs text l c in
  is_Some (LinkFinder.base_ref r.1)
  ∧ (r.2.2 = Ok tt
     ∨ (r.2.2 = Raise IndexError ∧ is_Some (attrs !! "srcset"))).
Proof.
  intros Hiter Hval Hbase. cbv zeta.
  assert (is_Some (LinkFinder.base_ref
            (LinkFinder.start_element unquote iter self tag attrs text l c).1))
    as Hbase'.
  { rewrite start_element_base_ref.
    destruct (_ && _); [by apply get_default_valued | done]. }
  split; [done|]. revert Hbase'.
  unfold LinkFinder.start_element.
  set (self' := if bool_decide (tag = "base") && _ then _ else self).
  destruct (_ && _ && _ && _); cbn [fst snd]; [by left|]. intros Hbase'.
  apply (for_each_outcome _ _
           (λ r, r = Ok tt
                 ∨ (r = Raise IndexError ∧ is_Some (attrs !! "srcset"))));
    [by left|].
  intros x Hx. apply elem_of_sorted in Hx; [|done].
  apply elem_of_intersection in Hx as [_ Hdom%elem_of_dom].
  destruct (start_element_attr_outcome unquote self' tag attrs text l c x
              Hval Hbase' Hdom) as [H|[H ->]]; [by left|by right].
Qed.

Lemma start_element_valued_safe_example :
  is_Some (LinkFinder.base_ref
             (LinkFinder.start_element strip_quotes elements
                (LinkFinder.init LinkTags []) "img"
                (attrs_of [("src", Some "a.jpg"); ("srcset", Some "a.jpg 1x,");
                           ("title", Some "")]) "" 1 1).1)
  ∧ ((LinkFinder.start_element strip_quotes elements
        (LinkFinder.init LinkTags []) "img"
        (attrs_of [("src", Some "a.jpg"); ("srcset", Some "a.jpg 1x,");
                   ("title", Some "")]) "" 1 1).2.2 = Ok tt
     ∨ ((LinkFinder.start_element strip_quotes elements
           (LinkFinder.init LinkTags []) "img"
           (attrs_of [("src", Some "a.jpg"); ("srcset", Some "a.jpg 1x,");
                      ("title", Some "")]) "" 1 1).2.2 = Raise IndexError
        ∧ is_Some (attrs_of [("src", Some "a.jpg");
                             ("srcset", Some "a.jpg 1x,");
                             ("title", Some "")] !! "srcset"))).
Proof.
  apply (start_element_valued_safe strip_quotes elements
           (LinkFinder.init LinkTags []) "img"
           (attrs_of [("src", Some "a.jpg"); ("srcset", Some "a.jpg 1x,");
                      ("title", Some "")]) "" 1 1 set_order_elements).
  - apply attrs_of_valued. repeat constructor; by eexists.
  - by eexists.
Defined.

(** ** Style, plain attributes, and values that are missing *)

(** No url occurrence is found in a text without opening parenthesis. *)
Lemma css_url_re_finditer_no_paren s :
  contains_char "(" s = false → css_url_re_finditer s = [].
Proof.
  induction s as [|x s IH]; intros H; [done|].
  rewrite css_url_re_finditer_nomatch.
  - apply IH. simpl in H. by apply orb_false_iff in H as [_ ?].
  - destruct (css_url_re_match (String x s)) as [r|] eqn:E; [|done].
    apply css_url_re_match_literal in E as (s1 & E & _).
    rewrite E in H. by vm_compute in H.
Qed.

(** X17: for a tag that is not meta, form, link, applet, a or img, the
    style attribute is never sent as it stands when its value is a
    non-empty text: the loop body sends one candidate for each url
    occurrence that [css_url_re] finds in the value, unquoted, in the order
    of the text, with an empty name and the document base, without
    exception; and it sends nothing when the value has no opening
    parenthesis. A style that is empty, or has no value, is sent as it is,
    in one call. *)
Theorem style_candidates (unquote : string → string)
    (self : LinkFinder.t) (tag : string) (attrs : attrs_t) (text : string)
    (l c : Z) (b : string) :
  tag ∉ ["meta"; "form"; "link"; "applet"; "a"; "img"] →
  LinkFinder.base_ref self = Some b →
  LinkFinder.start_element_attr unquote self tag attrs text l c "style"
  = match get attrs "style" with
    | Some (String x v) =>
        ((λ mo, SinkCall (Some (unquote mo)) l c "" b)
           <$> css_url_re_finditer (String x v), Ok tt)
    | value => ([SinkCall value l c "" b], Ok tt)
    end
  ∧ ∀ x v, get attrs "style" = Some (String x v) →
      contains_char "(" (String x v) = false →
      LinkFinder.start_element_attr unquote self tag attrs text l c "style"
      = ([], Ok tt).
Proof.
  intros Htag Hb.
  assert (tag ≠ "meta" ∧ tag ≠ "form" ∧ tag ≠ "link" ∧ tag ≠ "applet"
          ∧ tag ≠ "a" ∧ tag ≠ "img") as (T1 & T2 & T3 & T4 & T5 & T6).
  { repeat split; intros ->; apply Htag; set_solver. }
  assert (LinkFinder.start_element_attr unquote self tag attrs text l c
            "style"
          = match get attrs "style" with
            | Some (String x v) =>
                ((λ mo, SinkCall (Some (unquote mo)) l c "" b)
                   <$> css_url_re_finditer (String x v), Ok tt)
            | value => ([SinkCall value l c "" b], Ok tt)
            end) as Heq.
  { unfold LinkFinder.start_element_attr, LinkFinder.get_link_name.
    rewrite !(bool_decide_eq_false_2 _ T1), !(bool_decide_eq_false_2 _ T2),
      !(bool_decide_eq_false_2 _ T3), !(bool_decide_eq_false_2 _ T4),
      !(bool_decide_eq_false_2 _ T5), !(bool_decide_eq_false_2 _ T6).
    rewrite Hb. cbn [andb negb truthy]. rewrite !bind_ret_l.
    unfold LinkFinder.parse_tag.
    rewrite !(bool_decide_eq_false_2 _ T1). name_cases. cbn [andb].
    destruct (get attrs "style") as [[|x v]|]; cbn [truthy text_of];
      try done.
    apply (for_each_found_url _ (λ mo, Some (unquote mo))). }
  split; [done|]. intros x v Hv Hno. rewrite Heq, Hv.
  by rewrite css_url_re_finditer_no_paren.
Qed.

Lemma style_candidates_example :
  LinkFinder.start_element_attr strip_quotes (LinkFinder.init LinkTags [])
    "div"
    (attrs_of
       [("style",
         Some "background: url('a.png'); color: red; background-image:url(b.png)")])
    "" 3 9 "style"
  = ([SinkCall (Some "a.png") 3 9 "" ""; SinkCall (Some "b.png") 3 9 "" ""],
     Ok tt).
Proof.
  refine (eq_trans
            (proj1
               (style_candidates strip_quotes (LinkFinder.init LinkTags [])
                  "div"
                  (attrs_of
                     [("style",
                       Some "background: url('a.png'); color: red; background-image:url(b.png)")])
                  "" 3 9 "" _ _)) _).
  - intros H. repeat (apply elem_of_cons in H as [H|H]; [discriminate|]).
    by apply elem_of_nil in H.
  - reflexivity.
  - vm_compute. reflexivity.
Defined.

(** X18: for a tag that is not meta, form, link, applet, a or img, an
    attribute other than style, archive and srcset gives exactly one call
    of the sink, with the value of the attribute as it stands, [None] when
    the attribute has no value, an empty name and the document base, when
    the document base is a text. *)
Theorem plain_attribute_candidate (unquote : string → string)
    (self : LinkFinder.t) (tag : string) (attrs : attrs_t) (text : string)
    (l c : Z) (attr b : string) :
  tag ∉ ["meta"; "form"; "link"; "applet"; "a"; "img"] →
  attr ∉ ["style"; "archive"; "srcset"] →
  LinkFinder.base_ref self = Some b →
  LinkFinder.start_element_attr unquote self tag attrs text l c attr
  = ([SinkCall (get attrs attr) l c "" b], Ok tt).
Proof.
  intros Htag Hattr Hb.
  assert (tag ≠ "meta" ∧ tag ≠ "form" ∧ tag ≠ "link" ∧ tag ≠ "applet"
          ∧ tag ≠ "a" ∧ tag ≠ "img") as (T1 & T2 & T3 & T4 & T5 & T6).
  { repeat split; intros ->; apply Htag; set_solver. }
  assert (attr ≠ "style" ∧ attr ≠ "archive" ∧ attr ≠ "srcset")
    as (A1 & A2 & A3).
  { repeat split; intros ->; apply Hattr; set_solver. }
  unfold LinkFinder.start_element_attr, LinkFinder.get_link_name,
    LinkFinder.parse_tag.
  rewrite !(bool_decide_eq_false_2 _ T1), !(bool_decide_eq_false_2 _ T2),
    !(bool_decide_eq_false_2 _ T3), !(bool_decide_eq_false_2 _ T4),
    !(bool_decide_eq_false_2 _ T5), !(bool_decide_eq_false_2 _ T6),
    !(bool_decide_eq_false_2 _ A1), !(bool_decide_eq_false_2 _ A2),
    !(bool_decide_eq_false_2 _ A3).
  rewrite Hb. by cbn.
Qed.

Lemma plain_attribute_candidate_example :
  LinkFinder.start_element_attr strip_quotes
    (LinkFinder.init LinkTags []) "script"
    (attrs_of [("src", None); ("async", None)]) "" 4 2 "src"
  = ([SinkCall (get (attrs_of [("src", None); ("async", None)]) "src")
        4 2 "" ""], Ok tt).
Proof.
  apply (plain_attribute_candidate strip_quotes
           (LinkFinder.init LinkTags []) "script"
           (attrs_of [("src", None); ("async", None)]) "" 4 2 "src" "").
  - intros H. repeat (apply elem_of_cons in H as [H|H]; [discriminate|]).
    by apply elem_of_nil in H.
  - intros H. repeat (apply elem_of_cons in H as [H|H]; [discriminate|]).
    by apply elem_of_nil in H.
  - reflexivity.
Defined.

(** X19: a link tag whose rel is [dns-prefetch] and whose href is present
    without value (and that has no style or itemtype attribute) makes the
    tag event end with TypeError, no call of the sink made: the test for a
    colon is applied to [None]. *)
Theorem dns_prefetch_without_value (unquote : string → string)
    (iter : gset string → list string) (ic : list string) (attrs : attrs_t)
    (text : string) (l c : Z) :
  set_order iter →
  attrs !! "rel" = Some (Some "dns-prefetch") →
  attrs !! "href" = Some None →
  attrs !! "style" = None →
  attrs !! "itemtype" = None →
  (LinkFinder.start_element unquote iter (LinkFinder.init LinkTags ic)
     "link" attrs text l c).2
  = ([], Raise TypeError).
Proof.
  intros Hiter Hrel Hhref Hstyle Hitem.
  rewrite start_element_plain; [|discriminate..]. cbn [snd].
  rewrite init_tagattrs, LinkTags_link, LinkTags_universal.
  cbn [default from_option id].
  rewrite (for_each_single _ "href").
  - unfold LinkFinder.start_element_attr, get.
    rewrite Hrel, Hhref. name_cases. cbn [default from_option id].
    name_cases. by cbn.
  - by apply sorted_NoDup.
  - apply elem_of_sorted; [done|]. apply elem_of_intersection. split.
    + apply elem_of_union_l, elem_of_list_to_set. by left.
    + apply elem_of_dom. by rewrite Hhref.
  - intros x Hx Hne. exfalso.
    apply elem_of_sorted in Hx; [|done].
    apply elem_of_intersection in Hx as [Hx Hdom].
    apply elem_of_dom in Hdom as [w Hw].
    apply elem_of_union in Hx as [Hx|Hx]; apply elem_of_list_to_set in Hx.
    + by apply list_elem_of_singleton in Hx.
    + apply elem_of_cons in Hx as [->|Hx]; [congruence|].
      apply list_elem_of_singleton in Hx as ->. congruence.
Qed.

Lemma dns_prefetch_without_value_example :
  (LinkFinder.start_element strip_quotes elements
     (LinkFinder.init LinkTags []) "link"
     (attrs_of [("rel", Some "dns-prefetch"); ("href", None)]) "" 1 1).2
  = ([], Raise TypeError).
Proof.
  apply (dns_prefetch_without_value strip_quotes elements []
           (attrs_of [("rel", Some "dns-prefetch"); ("href", None)])
           "" 1 1 set_order_elements); reflexivity.
Defined.

(** X20: a base tag whose href is present without value, delivered while
    the document base is empty, makes the document base [None]; from then
    on the loop body of a tag that is not meta, form, link or applet ends
    with AssertionError for every attribute, no call of the sink made:
    [parse_tag] asserts that the base is a text. *)
Theorem base_without_value_then_assertion (unquote : string → string)
    (iter : gset string → list string) (self : LinkFinder.t)
    (attrs0 : attrs_t) (text0 : string) (l0 c0 : Z) :
  truthy (LinkFinder.base_ref self) = false →
  attrs0 !! "href" = Some None →
  let self' :=
    (LinkFinder.start_element unquote iter self "base" attrs0 text0 l0 c0).1
  in
  LinkFinder.base_ref self' = None
  ∧ ∀ tag attrs text l c attr,
      tag ∉ ["meta"; "form"; "link"; "applet"] →
      LinkFinder.start_element_attr unquote self' tag attrs text l c attr
      = ([], Raise AssertionError).
Proof.
  intros Hbase Hhref. cbv zeta.
  assert (LinkFinder.base_ref
            (LinkFinder.start_element unquote iter self "base" attrs0 text0
               l0 c0).1 = None) as Hnone.
  { rewrite start_element_base_ref, Hbase.
    rewrite (bool_decide_eq_true_2 ("base" = "base")) by done.
    unfold get_default. by rewrite Hhref. }
  split; [done|]. intros tag attrs text l c attr Htag.
  assert (tag ≠ "meta" ∧ tag ≠ "form" ∧ tag ≠ "link" ∧ tag ≠ "applet")
    as (T1 & T2 & T3 & T4).
  { repeat split; intros ->; apply Htag; set_solver. }
  unfold LinkFinder.start_element_attr.
  rewrite (bool_decide_eq_false_2 _ T1), (bool_decide_eq_false_2 _ T2),
    (bool_decide_eq_false_2 _ T3), (bool_decide_eq_false_2 _ T4).
  rewrite Hnone. cbn. unfold LinkFinder.parse_tag.
  by destruct (LinkFinder.get_link_name tag attrs attr text).
Qed.

Lemma base_without_value_then_assertion_example :
  LinkFinder.base_ref
    (LinkFinder.start_element strip_quotes elements
       (LinkFinder.init LinkTags []) "base" (attrs_of [("href", None)])
       "" 1 1).1 = None
  ∧ ∀ tag attrs text l c attr,
      tag ∉ ["meta"; "form"; "link"; "applet"] →
      LinkFinder.start_element_attr strip_quotes
        (LinkFinder.start_element strip_quotes elements
           (LinkFinder.init LinkTags []) "base" (attrs_of [("href", None)])
           "" 1 1).1 tag attrs text l c attr
      = ([], Raise AssertionError).
Proof.
  apply (base_without_value_then_assertion strip_quotes elements
           (LinkFinder.init LinkTags []) (attrs_of [("href", None)])
           "" 1 1); reflexivity.
Defined.
